(** * Movie Performance and Sentiment Analyzer: the dashboard of app_dash.py

    A shallow embedding of [src/app/app_dash.py].  The program is a thin
    layer over pandas, numpy, scipy and Dash; the library calls it makes
    are modelled in the modules [Numpy], [Scipy] and [Pandas] below, each
    with the part of the library's behaviour that the program relies on,
    and the program's own functions ([smooth_line], the franchise
    catalogue, [update_graph], [display_hover_data]) are transcribed on top
    of them.

    Conventions.
    - A Python exception is a value [Raise e] of the [result] monad.
    - A [datetime64[ns]] value is its int64 nanosecond count, as pandas
      stores it; [NaT] is the smallest int64, so that [pd.to_numeric] on a
      date column is the identity on the stored integers.
    - A float64 score is a rational ([Q]) or NaN ([None]).  The program only
      moves scores around; no arithmetic is done on them here.
    - [np.linspace] is computed in exact rational arithmetic.  Its end
      points are exact in binary64 too whenever the int64 bounds are
      binary64 numbers, which midnight timestamps are
      ([midnight_is_binary64]); the interior samples are idealised.
    - The value of the fitted spline at a point is left symbolic
      ([SplineValues]): only the shape of the result is modelled. *)

From Stdlib Require Import String Ascii.
From Stdlib Require Import ZArith QArith Qround Bool Lia List.
From Stdlib Require Import Permutation Sorted.
Import ListNotations.

Local Open Scope Z_scope.

(* ------------------------------------------------------------------ *)
(** ** Python results and exceptions *)

Module Py.

Inductive value_error :=
| NotStrictlyIncreasing   (* scipy: duplicate or decreasing abscissae *)
| TooFewDataPoints        (* scipy: cubic not-a-knot fit on < 4 points *)
| NonFinite               (* scipy: check_finite found a NaN *)
| NegativeSamples.        (* numpy: linspace with num < 0 *)

Inductive exn :=
| ValueError (why : value_error)
| IndexError
| KeyError (key : string)
| IndexingError
| FileNotFoundError (path : string).

Inductive result (A : Type) :=
| Ok (a : A)
| Raise (e : exn).

Arguments Ok {A} a.
Arguments Raise {A} e.

Definition bind {A B} (m : result A) (k : A -> result B) : result B :=
  match m with
  | Ok a => k a
  | Raise e => Raise e
  end.

Definition is_ok {A} (m : result A) : bool :=
  match m with Ok _ => true | Raise _ => false end.

(** [l[i]] for a non-negative index. *)
Definition getitem {A} (l : list A) (i : nat) : result A :=
  match nth_error l i with
  | Some a => Ok a
  | None => Raise IndexError
  end.

End Py.

Import Py.

Notation "x <- m ;; k" := (bind m (fun x => k))
  (at level 61, m at next level, right associativity).
Notation "' p <- m ;; k" := (bind m (fun p => k))
  (at level 61, p pattern, m at next level, right associativity).

(* ------------------------------------------------------------------ *)
(** ** numpy *)

Module Numpy.

(** [np.arange(0, num)]. *)
Definition arange (num : Z) : list Z :=
  map Z.of_nat (seq 0 (Z.to_nat num)).

(** [y[-1] = v] on a non-empty array. *)
Definition set_last (y : list Q) (v : Q) : list Q :=
  match y with
  | [] => []
  | _ => removelast y ++ [v]
  end.

(** [np.linspace(start, stop, num)] with [endpoint=True]:
    [div = num - 1], [step = delta / div], [y = arange(0, num) * step +
    start] (or [arange / div * delta + start] when the step is zero, and
    [arange * delta + start] when [div] is zero), and last [y[-1] = stop]
    when [num > 1]. *)
Definition linspace (start stop : Q) (num : Z) : result (list Q) :=
  if num <? 0 then Raise (ValueError NegativeSamples)
  else
    let div := num - 1 in
    let delta := (stop - start)%Q in
    let y := arange num in
    let y :=
      if 0 <? div then
        let step := (delta / inject_Z div)%Q in
        if Qeq_bool step 0
        then map (fun i => (inject_Z i / inject_Z div * delta + start)%Q) y
        else map (fun i => (inject_Z i * step + start)%Q) y
      else map (fun i => (inject_Z i * delta + start)%Q) y in
    Ok (if 1 <? num then set_last y stop else y).

(** [Series.min()] and [Series.max()] of a non-empty int64 series; on an
    empty one pandas answers NaN, which no caller below can reach. *)
Definition min (x : list Z) : Z :=
  match x with
  | [] => 0
  | a :: l => fold_left Z.min l a
  end.

Definition max (x : list Z) : Z :=
  match x with
  | [] => 0
  | a :: l => fold_left Z.max l a
  end.

End Numpy.

(* ------------------------------------------------------------------ *)
(** ** scipy.interpolate *)

Module Scipy.

(** The fitted object: the data it interpolates.  The B-spline
    coefficients are not computed. *)
Record BSpline := { data_x : list Z; data_y : list (option Q) }.

Fixpoint strictly_increasing (x : list Z) : bool :=
  match x with
  | a :: ((b :: _) as l) => (a <? b) && strictly_increasing l
  | _ => true
  end.

Definition isnan (v : option Q) : bool :=
  match v with None => true | Some _ => false end.

(** [make_interp_spline(x, y)] with the default [k=3] and no boundary
    conditions: the inputs must be finite, [x] strictly increasing, and
    the not-a-knot knot vector, which has [max(n-4,0) + 8] knots for [n]
    data points, must leave exactly [n] unknowns: [n >= 4]. *)
Definition make_interp_spline (x : list Z) (y : list (option Q))
  : result BSpline :=
  if existsb isnan y then Raise (ValueError NonFinite)
  else if negb (strictly_increasing x)
  then Raise (ValueError NotStrictlyIncreasing)
  else if (length x <? 4)%nat then Raise (ValueError TooFewDataPoints)
  else Ok {| data_x := x; data_y := y |}.

End Scipy.

(* ------------------------------------------------------------------ *)
(** ** The proleptic Gregorian calendar behind [datetime64] *)

Module Calendar.

Definition is_leap (y : Z) : bool :=
  ((y mod 4 =? 0) && negb (y mod 100 =? 0)) || (y mod 400 =? 0).

Definition days_in_month (y m : Z) : Z :=
  match m with
  | 2 => if is_leap y then 29 else 28
  | 4 | 6 | 9 | 11 => 30
  | _ => 31
  end.

(** Days from 1970-01-01 to the civil date [y-m-d]. *)
Definition days_from_civil (y m d : Z) : Z :=
  let y' := if m <=? 2 then y - 1 else y in
  let era := y' / 400 in
  let yoe := y' - era * 400 in
  let mp := if 2 <? m then m - 3 else m + 9 in
  let doy := (153 * mp + 2) / 5 + d - 1 in
  let doe := yoe * 365 + yoe / 4 - yoe / 100 + doy in
  era * 146097 + doe - 719468.

(** The civil date, [(y, m, d)], of a day count. *)
Definition civil_from_days (z : Z) : Z * Z * Z :=
  let z := z + 719468 in
  let era := z / 146097 in
  let doe := z - era * 146097 in
  let yoe := (doe - doe / 1460 + doe / 36524 - doe / 146096) / 365 in
  let y := yoe + era * 400 in
  let doy := doe - (365 * yoe + yoe / 4 - yoe / 100) in
  let mp := (5 * doy + 2) / 153 in
  let d := doy - (153 * mp + 2) / 5 + 1 in
  let m := if mp <? 10 then mp + 3 else mp - 9 in
  (if m <=? 2 then y + 1 else y, m, d).

Definition ns_per_day : Z := 86400 * 10 ^ 9.

(** The month names of [%b] in the C locale. *)
Definition month_abbr : list string :=
  ["Jan"; "Feb"; "Mar"; "Apr"; "May"; "Jun";
   "Jul"; "Aug"; "Sep"; "Oct"; "Nov"; "Dec"]%string.

End Calendar.

(* ------------------------------------------------------------------ *)
(** ** Characters and decimal numerals *)

Module Chars.

Definition is_digit (c : ascii) : bool :=
  let n := N_of_ascii c in ((48 <=? n) && (n <=? 57))%N.

Definition digit_value (c : ascii) : Z := Z.of_N (N_of_ascii c) - 48.

Definition digit_char (d : Z) : ascii := ascii_of_N (Z.to_N (d + 48)).

(** What the regular expression [\s] accepts among the ASCII characters:
    tab to carriage return, the four separators, the space. *)
Definition is_space (c : ascii) : bool :=
  let n := N_of_ascii c in
  (((9 <=? n) && (n <=? 13)) || ((28 <=? n) && (n <=? 32)))%N.

Definition is_upper (c : ascii) : bool :=
  let n := N_of_ascii c in ((65 <=? n) && (n <=? 90))%N.

Definition is_lower (c : ascii) : bool :=
  let n := N_of_ascii c in ((97 <=? n) && (n <=? 122))%N.

Definition lower (c : ascii) : ascii :=
  if is_upper c then ascii_of_N (N_of_ascii c + 32) else c.

Definition upper (c : ascii) : ascii :=
  if is_lower c then ascii_of_N (N_of_ascii c - 32) else c.

Fixpoint lower_string (s : string) : string :=
  match s with
  | EmptyString => EmptyString
  | String c r => String (lower c) (lower_string r)
  end.

Definition two_digits (d : Z) : string :=
  String (digit_char (d / 10)) (String (digit_char (d mod 10)) EmptyString).

Definition four_digits (y : Z) : string :=
  String (digit_char (y / 1000))
    (String (digit_char (y / 100 mod 10)) (two_digits (y mod 100))).

Fixpoint decimal_aux (fuel : nat) (n : Z) (acc : string) : string :=
  match fuel with
  | O => acc
  | S fuel' =>
      let acc' := String (digit_char (n mod 10)) acc in
      if n <? 10 then acc' else decimal_aux fuel' (n / 10) acc'
  end.

(** The decimal numeral of a non-negative integer below [10^20], without
    padding, as [%Y] prints a year. *)
Definition decimal (n : Z) : string := decimal_aux 20 n EmptyString.

End Chars.

(* ------------------------------------------------------------------ *)
(** ** pandas: values, masks, conversions *)

Module Pandas.

Import Calendar Chars.

(** The int64 behind [NaT]. *)
Definition NaT : Z := - 2 ^ 63.

Definition int64_max : Z := 2 ^ 63 - 1.

(** [pd.notna(y)] on a float series. *)
Definition notna (y : list (option Q)) : list bool :=
  map (fun v => match v with Some _ => true | None => false end) y.

(** [s[mask]] with a boolean series as the indexer: the mask has to line
    up with the series. *)
Fixpoint mask_select {A} (s : list A) (mask : list bool)
  : result (list A) :=
  match s, mask with
  | [], [] => Ok []
  | a :: s', b :: mask' =>
      r <- mask_select s' mask' ;;
      Ok (if b then a :: r else r)
  | _, _ => Raise IndexingError
  end.

(** The float64 to int64 cast, towards zero. *)
Definition float_to_int64 (q : Q) : Z :=
  Z.quot (Qnum q) (Z.pos (Qden q)).

(** [pd.to_datetime] on an array of floats: nanoseconds since the epoch. *)
Definition to_datetime_float (x : list Q) : list Z :=
  map float_to_int64 x.

(** *** [strptime] for the format ["%b %d, %Y"]

    The format compiles to the regular expression
    [(jan|feb|...|dec)\s+(3[0-1]|[1-2]\d|0[1-9]|[1-9]| [1-9]),\s+(\d\d\d\d)],
    matched ignoring case against the whole string.  The functions below
    are that expression read from left to right.  Backtracking never finds
    a match that the greedy reading misses: a day is followed by a comma,
    so a shorter day or a shorter run of spaces leaves a digit or a space
    where the comma has to be. *)

Fixpoint find_month (abc : string) (names : list string) (m : Z)
  : option Z :=
  match names with
  | [] => None
  | n :: names' =>
      if String.eqb (lower_string n) abc then Some m
      else find_month abc names' (m + 1)
  end.

Definition parse_month (s : string) : option (Z * string) :=
  match s with
  | String a (String b (String c r)) =>
      let abc := lower_string (String a (String b (String c EmptyString))) in
      match find_month abc month_abbr 1 with
      | Some m => Some (m, r)
      | None => None
      end
  | _ => None
  end.

Fixpoint skip_spaces (s : string) : string :=
  match s with
  | String c r => if is_space c then skip_spaces r else s
  | EmptyString => s
  end.

(** [\s+] *)
Definition parse_spaces (s : string) : option string :=
  match s with
  | String c r => if is_space c then Some (skip_spaces r) else None
  | EmptyString => None
  end.

Definition parse_day (s : string) : option (Z * string) :=
  match s with
  | String a r =>
      let one :=
        if is_digit a && (1 <=? digit_value a)
        then Some (digit_value a, r) else None in
      match r with
      | String b r' =>
          let v := 10 * digit_value a + digit_value b in
          if is_digit a && is_digit b && (1 <=? v) && (v <=? 31)
          then Some (v, r') else one
      | EmptyString => one
      end
  | EmptyString => None
  end.

Definition parse_comma (s : string) : option string :=
  match s with
  | String c r => if Ascii.eqb c "," then Some r else None
  | EmptyString => None
  end.

Definition parse_year (s : string) : option (Z * string) :=
  match s with
  | String a (String b (String c (String d r))) =>
      if is_digit a && is_digit b && is_digit c && is_digit d
      then Some (1000 * digit_value a + 100 * digit_value b
                 + 10 * digit_value c + digit_value d, r)
      else None
  | _ => None
  end.

Definition obind {A B} (m : option A) (k : A -> option B) : option B :=
  match m with Some a => k a | None => None end.

(** The fields [(year, month, day)] of a string that matches. *)
Definition strptime (s : string) : option (Z * Z * Z) :=
  obind (parse_month s) (fun '(m, s1) =>
  obind (parse_spaces s1) (fun s2 =>
  obind (parse_day s2) (fun '(d, s3) =>
  obind (parse_comma s3) (fun s4 =>
  obind (parse_spaces s4) (fun s5 =>
  obind (parse_year s5) (fun '(y, s6) =>
  match s6 with
  | EmptyString => Some (y, m, d)
  | _ => None
  end)))))).

(** One cell of [pd.to_datetime(col, format="%b %d, %Y", errors='coerce')]:
    a missing cell, a string that does not match, a day the month does not
    have and a date outside the int64 nanosecond range all become [NaT]. *)
Definition to_datetime (v : option string) : Z :=
  match v with
  | None => NaT
  | Some s =>
      match strptime s with
      | Some (y, m, d) =>
          if d <=? days_in_month y m then
            let ns := days_from_civil y m d * ns_per_day in
            if (NaT <? ns) && (ns <=? int64_max) then ns else NaT
          else NaT
      | None => NaT
      end
  end.

(** One cell of [col.dt.strftime('%b %d, %Y')]; [None] is NaN, the answer
    for [NaT]. *)
Definition strftime (t : Z) : option string :=
  if t =? NaT then None
  else
    let '(y, m, d) := civil_from_days (t / ns_per_day) in
    Some (nth (Z.to_nat (m - 1)) month_abbr EmptyString
          ++ " " ++ two_digits d ++ ", " ++ decimal y)%string.

(** *** [sort_values]

    [DataFrame.sort_values(by=col)] on a date column: the rows whose key is
    not [NaT] come first, by ascending key, and the [NaT] rows follow in
    the order they had ([na_position='last']).  Rows with equal keys are
    kept here in the order they had; numpy's sort does not promise that,
    and nothing below depends on it. *)

Fixpoint insert_by {A} (key : A -> Z) (a : A) (l : list A) : list A :=
  match l with
  | [] => [a]
  | b :: l' => if key b <? key a then b :: insert_by key a l'
               else a :: l
  end.

Definition argsort_rows {A} (key : A -> Z) (l : list A) : list A :=
  fold_right (insert_by key) [] l.

Definition isna {A} (key : A -> Z) (a : A) : bool := key a =? NaT.

Definition sort_values {A} (key : A -> Z) (df : list A) : list A :=
  argsort_rows key (filter (fun a => negb (isna key a)) df)
  ++ filter (isna key) df.

End Pandas.

(* ------------------------------------------------------------------ *)
(** ** Python strings and dictionaries *)

Module Str.

Import Chars.

Fixpoint startswith (s prefix : string) : bool :=
  match prefix, s with
  | EmptyString, _ => true
  | String p prefix', String c s' => Ascii.eqb c p && startswith s' prefix'
  | String _ _, EmptyString => false
  end.

Fixpoint endswith_aux (s suffix : string) (n : nat) : bool :=
  match n, s with
  | O, _ => String.eqb s suffix
  | S n', String _ s' => endswith_aux s' suffix n'
  | S _, EmptyString => false
  end.

(** [s.endswith(suffix)]. *)
Definition endswith (s suffix : string) : bool :=
  endswith_aux s suffix (String.length s - String.length suffix).

(** [s.replace(old, new)] for a non-empty [old]: every occurrence, from
    the left, without overlap.  [skip] counts the characters of an
    occurrence still to be passed over. *)
Fixpoint replace_aux (old new s : string) (skip : nat) : string :=
  match s with
  | EmptyString => EmptyString
  | String c s' =>
      match skip with
      | S k => replace_aux old new s' k
      | O =>
          if startswith s old
          then (new ++ replace_aux old new s' (String.length old - 1))%string
          else String c (replace_aux old new s' 0)
      end
  end.

Definition replace (s old new : string) : string :=
  replace_aux old new s 0.

(** [s.title()] on ASCII text: a letter after a letter is lowered, any
    other letter is raised. *)
Fixpoint title_aux (s : string) (after_letter : bool) : string :=
  match s with
  | EmptyString => EmptyString
  | String c s' =>
      String (if after_letter then lower c else upper c)
             (title_aux s' (is_upper c || is_lower c))
  end.

Definition title (s : string) : string := title_aux s false.

(** [d[k] = v] on a dictionary, which keeps its keys in the order of their
    first insertion. *)
Fixpoint dict_set {V} (d : list (string * V)) (k : string) (v : V)
  : list (string * V) :=
  match d with
  | [] => [(k, v)]
  | (k', v') :: d' =>
      if String.eqb k' k then (k, v) :: d'
      else (k', v') :: dict_set d' k v
  end.

End Str.

(* ------------------------------------------------------------------ *)
(** ** The smoothing helper (app_dash.py, lines 13-21) *)

(** What [smooth_line] hands back as abscissae: a datetime index
    ([AsDatetime]) from the spline branch, the caller's int64 series
    ([AsInt64]) from the fallback.  A date column of the frame is
    [AsDatetime] too. *)
Inductive x_values :=
| AsDatetime (ns : list Z)
| AsInt64 (v : list Z).

(** What it hands back as ordinates: the spline evaluated at the
    resampled abscissae, or a float series. *)
Inductive y_values :=
| SplineValues (spline : Scipy.BSpline) (x_smooth : list Q)
| FloatSeries (v : list (option Q)).

Definition x_stored (x : x_values) : list Z :=
  match x with AsDatetime l | AsInt64 l => l end.

Definition x_length (x : x_values) : nat := length (x_stored x).

Definition is_datetime (x : x_values) : bool :=
  match x with AsDatetime _ => true | AsInt64 _ => false end.

Definition y_length (y : y_values) : nat :=
  match y with
  | SplineValues _ xs => length xs
  | FloatSeries v => length v
  end.

Definition smooth_line (x : list Z) (y : list (option Q)) (points : Z)
  : result (x_values * y_values) :=
  let valid_data := Pandas.notna y in
  x' <- Pandas.mask_select x valid_data ;;
  y' <- Pandas.mask_select y valid_data ;;
  if (3 <=? length x')%nat then
    spline <- Scipy.make_interp_spline x' y' ;;
    x_smooth <- Numpy.linspace (inject_Z (Numpy.min x'))
                               (inject_Z (Numpy.max x')) points ;;
    let y_smooth := SplineValues spline x_smooth in
    Ok (AsDatetime (Pandas.to_datetime_float x_smooth), y_smooth)
  else Ok (AsInt64 x', FloatSeries y').

(** The default of the keyword argument [points]. *)
Definition default_points : Z := 300.

(* ------------------------------------------------------------------ *)
(** ** The franchise catalogue and the layout (lines 26-54) *)

(** What [os.listdir] sees: the entries of a directory, or nothing when
    there is no such directory. *)
Definition filesystem := string -> option (list string).

Definition os_listdir (fs : filesystem) (path : string)
  : result (list string) :=
  match fs path with
  | Some entries => Ok entries
  | None => Raise (FileNotFoundError path)
  end.

(** [os.path.join] of a directory and a file name. *)
Definition os_path_join (dir file : string) : string :=
  (dir ++ "/" ++ file)%string.

Definition csv_folder : string := "csvs".

Definition franchise_csvs (fs : filesystem) : result (list string) :=
  files <- os_listdir fs csv_folder ;;
  Ok (filter (fun file => Str.endswith file "_movies.csv") files).

Definition display_name (csv : string) : string :=
  Str.replace (Str.replace csv "_movies.csv" "") "_" " ".

(** The dictionary comprehension: later files overwrite the path of an
    equal display name. *)
Definition franchises_of (csvs : list string) : list (string * string) :=
  fold_left
    (fun d csv => Str.dict_set d (display_name csv)
                               (os_path_join csv_folder csv))
    csvs [].

Definition franchises (fs : filesystem) : result (list (string * string)) :=
  csvs <- franchise_csvs fs ;;
  Ok (franchises_of csvs).

(** The dropdown of [app.layout]; the graph and the hover box beside it
    are fixed. *)
Record dropdown := {
  options : list (string * string);   (* label, value *)
  value : string;
  placeholder : string
}.

Definition app_layout (fs : filesystem) : result dropdown :=
  franchises <- franchises fs ;;
  let options :=
    map (fun '(name, path) => (Str.title name, path)) franchises in
  value <- getitem (map snd franchises) 0 ;;
  Ok {| options := options; value := value;
        placeholder := "Select a Movie Franchise" |}.

(** Importing the module: the catalogue, then the layout. *)
Definition startup (fs : filesystem) : result dropdown := app_layout fs.

(* ------------------------------------------------------------------ *)
(** ** The data frame (lines 65-75) *)

(** A cell of an object column: text, a number, or NaN. *)
Inductive cell :=
| Str (s : string)
| Num (q : Q)
| NaN.

Definition of_float (v : option Q) : cell :=
  match v with Some q => Num q | None => NaN end.

Definition of_text (v : option string) : cell :=
  match v with Some s => Str s | None => NaN end.

(** A cell of the [sentiment_score] column as read from the file, by what
    [pd.to_numeric] makes of it: a number, an empty cell, or text that is
    not a number. *)
Inductive raw_score :=
| Numeric (q : Q)
| Missing
| NonNumeric (s : string).

(** One cell of [pd.to_numeric(col, errors='coerce')]. *)
Definition to_numeric_coerce (v : raw_score) : option Q :=
  match v with
  | Numeric q => Some q
  | Missing | NonNumeric _ => None
  end.

(** A row as [pd.read_csv] delivers it.  [release_date] is text or an
    empty cell; [performance] is a float column, as the schema has it. *)
Module Raw.

Record row := {
  title : cell;
  release_date : option string;
  production_budget : cell;
  box_office : cell;
  profit : cell;
  roi_percentage : cell;
  performance : option Q;
  poster_url : cell;
  backdrop_url : cell;
  runtime : cell;
  tagline : cell;
  trailer : cell;
  sentiment_score : raw_score;
  comment : cell
}.

End Raw.

(** A row of [df] once the loader is done with it. *)
Record row := {
  title : cell;
  release_date : Z;                        (* datetime64[ns] *)
  production_budget : cell;
  box_office : cell;
  profit : cell;
  roi_percentage : cell;
  performance : option Q;
  poster_url : cell;
  backdrop_url : cell;
  runtime : cell;
  tagline : cell;
  trailer : cell;
  sentiment_score : option Q;
  comment : cell;
  formatted_release_date : option string
}.

(** Line 68: the date column is replaced by its parsed form.  The pair
    keeps the new column beside the columns not yet touched. *)
Definition parse_release_date (r : Raw.row) : Z * Raw.row :=
  (Pandas.to_datetime (Raw.release_date r), r).

(** Lines 72 and 75, row by row: the numeric sentiment and the formatted
    date. *)
Definition finish_row (p : Z * Raw.row) : row :=
  let '(date, r) := p in
  {| title := Raw.title r;
     release_date := date;
     production_budget := Raw.production_budget r;
     box_office := Raw.box_office r;
     profit := Raw.profit r;
     roi_percentage := Raw.roi_percentage r;
     performance := Raw.performance r;
     poster_url := Raw.poster_url r;
     backdrop_url := Raw.backdrop_url r;
     runtime := Raw.runtime r;
     tagline := Raw.tagline r;
     trailer := Raw.trailer r;
     sentiment_score := to_numeric_coerce (Raw.sentiment_score r);
     comment := Raw.comment r;
     formatted_release_date := Pandas.strftime date |}.

(** Lines 68-75 of [update_graph]: parse the dates, sort, coerce the
    sentiment, add the formatted date. *)
Definition load (csv : list Raw.row) : list row :=
  let df := map parse_release_date csv in
  let df := Pandas.sort_values fst df in
  map finish_row df.

(** [df[name]] row by row. *)
Definition column (name : string) (r : row) : result cell :=
  if String.eqb name "title" then Ok (title r)
  else if String.eqb name "formatted_release_date"
  then Ok (of_text (formatted_release_date r))
  else if String.eqb name "production_budget" then Ok (production_budget r)
  else if String.eqb name "box_office" then Ok (box_office r)
  else if String.eqb name "profit" then Ok (profit r)
  else if String.eqb name "roi_percentage" then Ok (roi_percentage r)
  else if String.eqb name "performance" then Ok (of_float (performance r))
  else if String.eqb name "poster_url" then Ok (poster_url r)
  else if String.eqb name "backdrop_url" then Ok (backdrop_url r)
  else if String.eqb name "runtime" then Ok (runtime r)
  else if String.eqb name "tagline" then Ok (tagline r)
  else if String.eqb name "trailer" then Ok (trailer r)
  else if String.eqb name "sentiment_score"
  then Ok (of_float (sentiment_score r))
  else if String.eqb name "comment" then Ok (comment r)
  else Raise (KeyError name).

Fixpoint mapM {A B} (f : A -> result B) (l : list A) : result (list B) :=
  match l with
  | [] => Ok []
  | a :: l' => b <- f a ;; r <- mapM f l' ;; Ok (b :: r)
  end.

(** [df[names].values]: one tuple of cells per row. *)
Definition select_values (names : list string) (df : list row)
  : result (list (list cell)) :=
  mapM (fun r => mapM (fun name => column name r) names) df.

(* ------------------------------------------------------------------ *)
(** ** The chart builder (lines 78-144) *)

Module go.

Record Scatter := {
  x : x_values;
  y : y_values;
  mode : string;
  name : string;
  color : string;
  hoverinfo : option string;
  showlegend : bool;
  customdata : option (list (list cell));
  legendgroup : string
}.

Record Figure := {
  data : list Scatter;
  title : string;
  xaxis_title : string;
  yaxis_title : string;
  hovermode : string
}.

End go.

(** The column list of lines 104-106 and 130-132. *)
Definition customdata_columns : list string :=
  ["title"; "formatted_release_date"; "production_budget"; "box_office";
   "profit"; "roi_percentage"; "performance"; "poster_url"; "backdrop_url";
   "runtime"; "tagline"; "trailer"; "sentiment_score"; "comment"]%string.

(** Lines 78-144 of [update_graph]: the figure of a loaded frame. *)
Definition build_figure (df : list row) : result go.Figure :=
  let x_numeric := map release_date df in
  '(x_smooth_perf, y_smooth_perf) <-
     smooth_line x_numeric (map performance df) default_points ;;
  '(x_smooth_sent, y_smooth_sent) <-
     smooth_line x_numeric (map sentiment_score df) default_points ;;
  let smoothed_performance :=
    {| go.x := x_smooth_perf; go.y := y_smooth_perf;
       go.mode := "lines"; go.name := "Performance";
       go.color := "#e63946"; go.hoverinfo := Some "skip"%string;
       go.showlegend := false; go.customdata := None;
       go.legendgroup := "Performance" |} in
  customdata_perf <- select_values customdata_columns df ;;
  let raw_performance :=
    {| go.x := AsDatetime (map release_date df);
       go.y := FloatSeries (map performance df);
       go.mode := "markers"; go.name := "Performance";
       go.color := "#e63946"; go.hoverinfo := None;
       go.showlegend := true; go.customdata := Some customdata_perf;
       go.legendgroup := "Performance" |} in
  let smoothed_sentiment :=
    {| go.x := x_smooth_sent; go.y := y_smooth_sent;
       go.mode := "lines"; go.name := "Sentiment";
       go.color := "#457b9d"; go.hoverinfo := Some "skip"%string;
       go.showlegend := false; go.customdata := None;
       go.legendgroup := "Sentiment" |} in
  customdata_sent <- select_values customdata_columns df ;;
  let raw_sentiment :=
    {| go.x := AsDatetime (map release_date df);
       go.y := FloatSeries (map sentiment_score df);
       go.mode := "markers"; go.name := "Sentiment";
       go.color := "#457b9d"; go.hoverinfo := None;
       go.showlegend := true; go.customdata := Some customdata_sent;
       go.legendgroup := "Sentiment" |} in
  Ok {| go.data := [smoothed_performance; raw_performance;
                    smoothed_sentiment; raw_sentiment];
        go.title := "Performance and Sentiment Over Time";
        go.xaxis_title := "Release Date";
        go.yaxis_title := "Performance/Sentiment";
        go.hovermode := "x unified" |}.

(** [update_graph], from the table that [pd.read_csv] read: the loader,
    then the chart. *)
Definition update_graph (csv : list Raw.row) : result go.Figure :=
  let df := load csv in
  build_figure df.

(* ------------------------------------------------------------------ *)
(** ** The detail panel (lines 154-253) *)

Module html.

(** A piece of an f-string: literal text, or a value in braces. *)
Inductive piece :=
| Lit (s : string)
| Fmt (c : cell).

Inductive prop :=
| PStr (s : string)
| PCell (c : cell)
| PStyle (css : list (string * string)).

(** A Dash component, or the text between components. *)
#[warnings="-register-all"]
Inductive node :=
| Element (tag : string) (id : option string)
          (props : list (string * prop)) (children : list node)
| Text (t : list piece).

Definition Div (children : list node) (id : option string) : node :=
  Element "Div" id [] children.

Definition H3 (t : list piece) : node := Element "H3" None [] [Text t].

Definition P (t : list piece) (id : option string) : node :=
  Element "P" id [] [Text t].

Definition B (t : string) (id : option string) : node :=
  Element "B" id [] [Text [Lit t]].

Definition Img (src : prop) (alt : option string) (id : option string)
  : node :=
  Element "Img" id
    (("src"%string, src)
       :: match alt with
          | Some a => [("alt"%string, PStr a)]
          | None => []
          end) [].

Definition Iframe (src : prop) : node :=
  Element "Iframe" None [("src"%string, src)] [].


End html.

(** A point of [hoverData]: the trace, the position in it, and the
    [customdata] tuple the trace carries there, if it carries any. *)
Record point := {
  curveNumber : nat;
  pointIndex : nat;
  point_customdata : option (list cell)
}.

(** ['customdata'] of a point. *)
Definition get_customdata (p : point) : result (list cell) :=
  match point_customdata p with
  | Some c => Ok c
  | None => Raise (KeyError "customdata")
  end.

Definition metric_card (icon : string) (shown : list html.piece)
  (label : string) : html.node :=
  html.Div
    [html.Img (html.PStr icon) (Some "Icon by juicy_fish"%string)
              (Some "icon"%string);
     html.Div [html.P shown (Some "metric-text-value"%string);
               html.B label (Some "metric-text"%string)]
              (Some "metric-text-container"%string)]
    (Some "metric-container"%string).

(** The panel when nothing is hovered (lines 156-200). *)
Definition placeholder_panel : html.node :=
  html.Div
    [html.Div
       [html.H3 [html.Lit "Hover Over the Graph For More Information"];
        html.P [html.Lit "..."] (Some "release-date"%string)]
       (Some "movie-text"%string);
     html.Div
       [html.Div
          [html.Img (html.PStr "https://placehold.co/2000x3000?text=...")
                    None None;
           html.Img (html.PStr "https://placehold.co/410x280?text=...")
                    None None]
          (Some "image-container"%string)] None;
     html.Div
       [metric_card "./assets/movie.png" [html.Lit "-.--"] "Performance";
        metric_card "./assets/ticket.png" [html.Lit "-.--"] "Sentiment"]
       (Some "score-container"%string);
     html.Div
       [html.Div
          [html.Div [html.P [html.Lit "Production Budget: "] None;
                     html.P [html.Lit "Box Office: "] None]
                    (Some "stats-container-half"%string);
           html.Div [html.P [html.Lit "Profit: "] None;
                     html.P [html.Lit "ROI Percentage: "] None]
                    (Some "stats-container-half"%string)]
          (Some "stats-container"%string);
        html.Div
          [html.Element "P" None [] [html.Text [html.Lit "Comment: "]]]
          (Some "comment-container"%string)]
       (Some "stats"%string)]
    None.

(** [display_hover_data]; the second argument of the callback, the
    franchise selected, is not read. *)
Definition display_hover_data (hover_data : option (list point))
  : result html.node :=
  match hover_data with
  | None => Ok placeholder_panel
  | Some points =>
      p <- getitem points 0 ;;
      point_data <- get_customdata p ;;
      poster_url <- getitem point_data 7 ;;
      backdrop_url <- getitem point_data 8 ;;
      trailer <- getitem point_data 11 ;;
      d0 <- getitem point_data 0 ;;
      d1 <- getitem point_data 1 ;;
      d9 <- getitem point_data 9 ;;
      d10 <- getitem point_data 10 ;;
      d6 <- getitem point_data 6 ;;
      d12 <- getitem point_data 12 ;;
      d2 <- getitem point_data 2 ;;
      d3 <- getitem point_data 3 ;;
      d4 <- getitem point_data 4 ;;
      d5 <- getitem point_data 5 ;;
      d13 <- getitem point_data 13 ;;
      Ok (html.Div
        [html.Div
           [html.H3 [html.Fmt d0];
            html.P [html.Fmt d1; html.Lit " · "; html.Fmt d9;
                    html.Lit " min · "; html.Fmt d10]
                   (Some "release-date"%string)]
           (Some "movie-text"%string);
         html.Div
           [html.Div
              [html.Img (html.PCell poster_url) None None;
               html.Iframe (html.PCell trailer)]
              (Some "image-container"%string)] None;
         html.Div
           [metric_card "./assets/movie.png" [html.Fmt d6] "Performance";
            metric_card "./assets/ticket.png" [html.Fmt d12] "Sentiment"]
           (Some "score-container"%string);
         html.Div
           [html.Div
              [html.Div
                 [html.P [html.Lit "Production Budget: "; html.Fmt d2] None;
                  html.P [html.Lit "Box Office: "; html.Fmt d3] None]
                 (Some "stats-container-half"%string);
               html.Div
                 [html.P [html.Lit "Profit: "; html.Fmt d4] None;
                  html.P [html.Lit "ROI Percentage: "; html.Fmt d5] None]
                 (Some "stats-container-half"%string)]
              (Some "stats-container"%string);
            html.Div
              [html.Element "P" None []
                 [html.Text [html.Lit "Comment: "];
                  html.Element "I" None
                    [("style"%string,
                      html.PStyle [("color", "#306899")]%string)]
                    [html.Text [html.Fmt d13]]]]
              (Some "comment-container"%string)]
           (Some "stats"%string)]
        None)
  end.



(* ------------------------------------------------------------------ *)
(** ** Vocabulary of the statements *)

Definition notnull {A} (v : option A) : bool :=
  match v with Some _ => true | None => false end.

(** The pairs of two parallel series whose [y] is not null, in order. *)
Definition valid_pairs (x : list Z) (y : list (option Q))
  : list (Z * option Q) :=
  filter (fun p => notnull (snd p)) (combine x y).

(** The sample that [linspace] computes at index [i], before the last one
    is overwritten. *)
Definition linspace_sample (start stop : Q) (num i : Z) : Q :=
  let div := num - 1 in
  let delta := (stop - start)%Q in
  if 0 <? div then
    let step := (delta / inject_Z div)%Q in
    if Qeq_bool step 0
    then (inject_Z i / inject_Z div * delta + start)%Q
    else (inject_Z i * step + start)%Q
  else (inject_Z i * delta + start)%Q.

(** Whether the loader reads a date off a raw row. *)
Definition parses (r : Raw.row) : bool :=
  negb (Pandas.to_datetime (Raw.release_date r) =? Pandas.NaT).

(** The row of the frame that a raw row becomes. *)
Definition loaded (r : Raw.row) : row :=
  finish_row (parse_release_date r).

Definition has_date (r : row) : bool :=
  negb (release_date r =? Pandas.NaT).

(** The attributes of a row in the order of [customdata_columns]. *)
Definition attribute_tuple (r : row) : list cell :=
  [title r; of_text (formatted_release_date r); production_budget r;
   box_office r; profit r; roi_percentage r; of_float (performance r);
   poster_url r; backdrop_url r; runtime r; tagline r; trailer r;
   of_float (sentiment_score r); comment r].

(** An integer that binary64 holds exactly: [m * 2^e] with [|m| < 2^53]. *)
Definition is_binary64 (z : Z) : Prop :=
  exists m e, z = m * 2 ^ e /\ 0 <= e /\ Z.abs m < 2 ^ 53.

(** The shape ["Mon DD, YYYY"]: a month name of [%b], a space, two digits,
    a comma, a space, four digits. *)
Definition well_formed (s : string) : bool :=
  match s with
  | String m1 (String m2 (String m3 (String s1 (String d1 (String d2
      (String c (String s2 (String y1 (String y2 (String y3 (String y4
         EmptyString))))))))))) =>
      existsb (String.eqb (String m1 (String m2 (String m3 EmptyString))))
              Calendar.month_abbr
      && Ascii.eqb s1 " " && Chars.is_digit d1 && Chars.is_digit d2
      && Ascii.eqb c "," && Ascii.eqb s2 " "
      && Chars.is_digit y1 && Chars.is_digit y2
      && Chars.is_digit y3 && Chars.is_digit y4
  | _ => false
  end.

(** The string that shape has for a month, a day and a year. *)
Definition canonical (m d y : Z) : string :=
  (nth (Z.to_nat (m - 1)) Calendar.month_abbr EmptyString
   ++ " " ++ Chars.two_digits d ++ ", " ++ Chars.four_digits y)%string.

(** The integers [lo], [lo + 1], ..., [lo + n - 1]. *)
Definition zrange (lo : Z) (n : nat) : list Z :=
  map (fun i => lo + Z.of_nat i) (seq 0 n).

(* ------------------------------------------------------------------ *)
(** ** Sample tables *)

(** A row of a file, with the columns the examples do not look at left
    the same in every row. *)
Definition movie (title : string) (date : option string)
  (performance : option Q) (sentiment : raw_score) : Raw.row :=
  {| Raw.title := Str title;
     Raw.release_date := date;
     Raw.production_budget := Num 100;
     Raw.box_office := Num 250;
     Raw.profit := Num 150;
     Raw.roi_percentage := Num 150;
     Raw.performance := performance;
     Raw.poster_url := Str "poster.jpg";
     Raw.backdrop_url := Str "backdrop.jpg";
     Raw.runtime := Num 120;
     Raw.tagline := Str "tagline";
     Raw.trailer := Str "trailer";
     Raw.sentiment_score := sentiment;
     Raw.comment := Str "comment" |}.

(** Five films, each with a date of its own. *)
Definition five_movies : list Raw.row :=
  [movie "Three" (Some "Jul 04, 2008"%string) (Some 3%Q) (Numeric 6);
   movie "One" (Some "May 25, 1977"%string) (Some 1%Q) (Numeric 8);
   movie "Five" (Some "Dec 18, 2015"%string) (Some 5%Q) (Numeric 4);
   movie "Two" (Some "May 21, 1980"%string) (Some 2%Q) (Numeric 7);
   movie "Four" (Some "May 19, 2011"%string) (Some 4%Q) (Numeric 5)].

(** Five films, two of them released on the same day. *)
Definition same_day_movies : list Raw.row :=
  [movie "One" (Some "May 25, 1977"%string) (Some 1%Q) (Numeric 8);
   movie "Two" (Some "May 21, 1980"%string) (Some 2%Q) (Numeric 7);
   movie "Three" (Some "Jul 04, 2008"%string) (Some 3%Q) (Numeric 6);
   movie "Four" (Some "Jul 04, 2008"%string) (Some 4%Q) (Numeric 5);
   movie "Five" (Some "Dec 18, 2015"%string) (Some 5%Q) (Numeric 4)].

(** A film whose date is not in the format of the file. *)
Definition undated_movie : Raw.row :=
  movie "Untitled" (Some "2008-07-04"%string) (Some 3%Q) (Numeric 6).

(** A date of the right shape before the first timestamp, and a date the
    parser reads although its day has one digit. *)
Definition early_movie : Raw.row :=
  movie "Early" (Some "Jan 01, 1500"%string) (Some 3%Q) (Numeric 6).

Definition short_day_movie : Raw.row :=
  movie "Short" (Some "May 5, 2017"%string) (Some 3%Q) (Numeric 6).

(** Directories: none at all, one without a matching file, one with
    two. *)
Definition no_directory : filesystem := fun _ => None.

Definition no_matching_file : filesystem :=
  fun path => if String.eqb path "csvs"
              then Some ["notes.txt"; "movies.csv"]%string else None.

Definition two_franchises : filesystem :=
  fun path => if String.eqb path "csvs"
              then Some ["star_wars_movies.csv"; "readme.md";
                         "toy_story_movies.csv"]%string
              else None.

(* ------------------------------------------------------------------ *)
(** ** Vocabulary for the catalogue *)

(** [d.get(k)] on a dictionary. *)
Fixpoint dict_get {V} (d : list (string * V)) (k : string) : option V :=
  match d with
  | [] => None
  | (k', v) :: d' => if String.eqb k' k then Some v else dict_get d' k
  end.

(** Whether a character is in a string. *)
Fixpoint contains_char (s : string) (c : ascii) : bool :=
  match s with
  | EmptyString => false
  | String a s' => Ascii.eqb a c || contains_char s' c
  end.

(** The files of a listing that the catalogue is built from, and the
    entry that a file gives. *)
Definition matching (entries : list string) : list string :=
  filter (fun file => Str.endswith file "_movies.csv") entries.

Definition catalogue_entry (csv : string) : string * string :=
  (display_name csv, os_path_join csv_folder csv).

(** A string with a space for each underscore. *)
Fixpoint spaces_for_underscores (s : string) : string :=
  match s with
  | EmptyString => EmptyString
  | String c s' =>
      String (if Ascii.eqb c "_" then " "%char else c)
             (spaces_for_underscores s')
  end.

(* ------------------------------------------------------------------ *)
(** ** Vocabulary for the chart *)

(** The rows of a frame that have a score in the given column, and
    whether [smooth_line] returns for the dates and that column of the
    frame. *)
Definition scored (score : row -> option Q) (df : list row) : list row :=
  filter (fun r => notnull (score r)) df.



(* ------------------------------------------------------------------ *)
(** ** More sample data *)

(** A directory with two files of the same display name. *)
Definition same_name_files : filesystem :=
  fun path => if String.eqb path "csvs"
              then Some ["star_wars_movies.csv";
                         "star wars_movies.csv"]%string
              else None.

(** Two films, one of them without a sentiment score. *)
Definition two_movies : list Raw.row :=
  [movie "Two" (Some "May 21, 1980"%string) (Some 2%Q) Missing;
   movie "One" (Some "May 25, 1977"%string) (Some 1%Q) (Numeric 8)].

(** A tuple of fourteen cells, and the same with another backdrop and a
    cell more. *)
Definition sample_tuple : list cell :=
  [Str "Title"; Str "May 25, 1977"; Num 11; Num 775; Num 764; Num 6945;
   Num 9; Str "poster.jpg"; Str "backdrop.jpg"; Num 121; Str "tagline";
   Str "trailer"; Num 8; Str "comment"].

Definition other_backdrop_tuple : list cell :=
  [Str "Title"; Str "May 25, 1977"; Num 11; Num 775; Num 764; Num 6945;
   Num 9; Str "poster.jpg"; Str "another.jpg"; Num 121; Str "tagline";
   Str "trailer"; Num 8; Str "comment"; Str "extra"].
(* ------------------------------------------------------------------ *)
(** ** Masks and valid pairs *)

Section Masks.

Import Pandas.

Lemma mask_select_notna_x (x : list Z) (y : list (option Q)) :
  length x = length y ->
  mask_select x (notna y) = Ok (map fst (valid_pairs x y)).
Proof.
  revert y; induction x as [|a x IH]; intros [|v y] Hlen;
    simpl in Hlen; try discriminate; [reflexivity|].
  injection Hlen as Hlen. simpl. rewrite (IH y Hlen).
  unfold valid_pairs. simpl. destruct v; reflexivity.
Qed.

Lemma mask_select_notna_y (x : list Z) (y : list (option Q)) :
  length x = length y ->
  mask_select y (notna y) = Ok (map snd (valid_pairs x y)).
Proof.
  revert y; induction x as [|a x IH]; intros [|v y] Hlen;
    simpl in Hlen; try discriminate; [reflexivity|].
  injection Hlen as Hlen. simpl. rewrite (IH y Hlen).
  unfold valid_pairs. simpl. destruct v; reflexivity.
Qed.


Lemma valid_pairs_notnull (x : list Z) (y : list (option Q)) :
  Forall (fun p => snd p <> None) (valid_pairs x y).
Proof.
  apply Forall_forall. intros p Hp. apply filter_In in Hp.
  destruct Hp as [_ Hp]. destruct (snd p); [discriminate|discriminate Hp].
Qed.


Lemma valid_x_in (x : list Z) (y : list (option Q)) (t : Z) :
  In t (map fst (valid_pairs x y)) -> In t x.
Proof.
  rewrite in_map_iff. intros [[a b] [<- Hp]]. unfold valid_pairs in Hp.
  apply filter_In in Hp. destruct Hp as [Hp _].
  now apply in_combine_l in Hp.
Qed.

Lemma valid_pairs_no_nan (x : list Z) (y : list (option Q)) :
  existsb Scipy.isnan (map snd (valid_pairs x y)) = false.
Proof.
  unfold valid_pairs. induction (combine x y) as [|[a v] l IH];
    [reflexivity|].
  simpl. destruct v; simpl; assumption.
Qed.

(** [smooth_line] in terms of the valid pairs. *)
Lemma smooth_line_unfold (x : list Z) (y : list (option Q)) (points : Z) :
  length x = length y ->
  smooth_line x y points =
  let vx := map fst (valid_pairs x y) in
  let vy := map snd (valid_pairs x y) in
  if (3 <=? length vx)%nat then
    spline <- Scipy.make_interp_spline vx vy ;;
    x_smooth <- Numpy.linspace (inject_Z (Numpy.min vx))
                               (inject_Z (Numpy.max vx)) points ;;
    Ok (AsDatetime (to_datetime_float x_smooth),
        SplineValues spline x_smooth)
  else Ok (AsInt64 vx, FloatSeries vy).
Proof.
  intros Hlen. unfold smooth_line.
  rewrite (mask_select_notna_x x y Hlen), (mask_select_notna_y x y Hlen).
  reflexivity.
Qed.

End Masks.

(* ------------------------------------------------------------------ *)
(** ** Minimum and maximum of a series *)

Section MinMax.

Lemma fold_min_le (l : list Z) (a : Z) :
  fold_left Z.min l a <= a /\ Forall (fun t => fold_left Z.min l a <= t) l.
Proof.
  revert a; induction l as [|b l IH]; intros a; simpl.
  - split; [lia|constructor].
  - destruct (IH (Z.min a b)) as [H1 H2]. split; [lia|].
    constructor; [lia|assumption].
Qed.

Lemma fold_min_in (l : list Z) (a : Z) :
  fold_left Z.min l a = a \/ In (fold_left Z.min l a) l.
Proof.
  revert a; induction l as [|b l IH]; intros a; simpl; [now left|].
  destruct (IH (Z.min a b)) as [H|H]; [|now right; right].
  rewrite H. destruct (Z.min_spec a b) as [[_ E]|[_ E]]; rewrite E;
    [now left|now right; left].
Qed.

Lemma fold_max_ge (l : list Z) (a : Z) :
  a <= fold_left Z.max l a /\ Forall (fun t => t <= fold_left Z.max l a) l.
Proof.
  revert a; induction l as [|b l IH]; intros a; simpl.
  - split; [lia|constructor].
  - destruct (IH (Z.max a b)) as [H1 H2]. split; [lia|].
    constructor; [lia|assumption].
Qed.

Lemma fold_max_in (l : list Z) (a : Z) :
  fold_left Z.max l a = a \/ In (fold_left Z.max l a) l.
Proof.
  revert a; induction l as [|b l IH]; intros a; simpl; [now left|].
  destruct (IH (Z.max a b)) as [H|H]; [|now right; right].
  rewrite H. destruct (Z.max_spec a b) as [[_ E]|[_ E]]; rewrite E;
    [now right; left|now left].
Qed.

Lemma min_is_least (l : list Z) :
  l <> [] -> In (Numpy.min l) l /\ Forall (fun t => Numpy.min l <= t) l.
Proof.
  destruct l as [|a l]; [congruence|]. intros _. simpl. split.
  - destruct (fold_min_in l a) as [H|H]; [left; now rewrite H|now right].
  - destruct (fold_min_le l a). now constructor.
Qed.

Lemma max_is_greatest (l : list Z) :
  l <> [] -> In (Numpy.max l) l /\ Forall (fun t => t <= Numpy.max l) l.
Proof.
  destruct l as [|a l]; [congruence|]. intros _. simpl. split.
  - destruct (fold_max_in l a) as [H|H]; [left; now rewrite H|now right].
  - destruct (fold_max_ge l a). now constructor.
Qed.

Lemma min_le_max (l : list Z) : l <> [] -> Numpy.min l <= Numpy.max l.
Proof.
  intros H. destruct (min_is_least l H) as [Hin _].
  destruct (max_is_greatest l H) as [_ Hall].
  rewrite Forall_forall in Hall. now apply Hall.
Qed.

End MinMax.
(* ------------------------------------------------------------------ *)
(** ** [np.linspace] and the cast back to nanoseconds *)

Section Linspace.

Import Numpy Pandas.

Lemma float_to_int64_exact (q : Q) (a : Z) :
  (q == inject_Z a)%Q -> float_to_int64 q = a.
Proof.
  unfold Qeq, float_to_int64. simpl. intros H.
  rewrite Z.mul_1_r in H. rewrite H. apply Z.quot_mul. discriminate.
Qed.

Lemma float_to_int64_bounds (q : Q) (a b : Z) :
  (inject_Z a <= q)%Q -> (q <= inject_Z b)%Q ->
  a <= float_to_int64 q <= b.
Proof.
  unfold Qle, float_to_int64. simpl. rewrite !Z.mul_1_r. intros Ha Hb.
  assert (Hd : 0 < Z.pos (Qden q)) by reflexivity. split.
  - rewrite <- (Z.quot_mul a (Z.pos (Qden q))) by discriminate.
    apply Z.quot_le_mono; assumption.
  - rewrite <- (Z.quot_mul b (Z.pos (Qden q))) by discriminate.
    apply Z.quot_le_mono; assumption.
Qed.

Lemma last_map_nonempty {A B} (f : A -> B) (l : list A) (d : B) (d' : A) :
  l <> [] -> last (map f l) d = f (last l d').
Proof.
  induction l as [|a l IH]; [congruence|]. intros _.
  destruct l as [|a' l]; [reflexivity|].
  change (last (map f (a' :: l)) d = f (last (a' :: l) d')).
  apply IH. discriminate.
Qed.

Lemma arange_length (num : Z) : length (arange num) = Z.to_nat num.
Proof. unfold arange. now rewrite length_map, length_seq. Qed.

Lemma arange_range (num i : Z) : In i (arange num) -> 0 <= i <= num - 1.
Proof.
  unfold arange. rewrite in_map_iff. intros [k [<- Hk]].
  apply in_seq in Hk. lia.
Qed.

Lemma arange_head (num : Z) :
  1 <= num -> exists l, arange num = 0 :: l.
Proof.
  intros H. unfold arange. destruct (Z.to_nat num) as [|n] eqn:E; [lia|].
  simpl. eauto.
Qed.

Lemma set_last_length (y : list Q) (v : Q) :
  length (set_last y v) = length y.
Proof.
  destruct y as [|a y]; [reflexivity|]. unfold set_last.
  rewrite length_app. simpl length at 2.
  assert (H := @app_removelast_last _ (a :: y) 0%Q ltac:(discriminate)).
  rewrite H at 2. rewrite length_app. reflexivity.
Qed.

Lemma set_last_last (y : list Q) (v d : Q) :
  y <> [] -> last (set_last y v) d = v.
Proof.
  destruct y as [|a y]; [congruence|]. intros _. unfold set_last.
  apply last_last.
Qed.

Lemma set_last_head (a b : Q) (y : list Q) (v : Q) :
  exists l, set_last (a :: b :: y) v = a :: l.
Proof. unfold set_last. simpl. eauto. Qed.

Lemma set_last_Forall (P : Q -> Prop) (y : list Q) (v : Q) :
  Forall P y -> P v -> Forall P (set_last y v).
Proof.
  intros Hy Hv. destruct y as [|a y]; [constructor|]. unfold set_last.
  apply Forall_app. split; [|now constructor].
  rewrite Forall_forall in *. intros q Hq. apply Hy.
  rewrite (@app_removelast_last _ (a :: y) 0%Q) by discriminate.
  apply in_or_app. now left.
Qed.

Lemma linspace_samples (start stop : Q) (num : Z) :
  0 <= num ->
  linspace start stop num =
  Ok (let y := map (linspace_sample start stop num) (arange num) in
      if 1 <? num then set_last y stop else y).
Proof.
  intros H. unfold linspace, linspace_sample.
  destruct (num <? 0) eqn:E; [lia|].
  destruct (0 <? num - 1); [|reflexivity].
  destruct (Qeq_bool _ 0); reflexivity.
Qed.

Lemma linspace_sample_zero (start stop : Q) (num : Z) :
  (linspace_sample start stop num 0 == start)%Q.
Proof.
  unfold linspace_sample. destruct (0 <? num - 1); [destruct (Qeq_bool _ 0)|];
    unfold Qdiv; ring.
Qed.

Lemma linspace_sample_between (start stop : Q) (num i : Z) :
  (start <= stop)%Q -> 2 <= num -> 0 <= i <= num - 1 ->
  (start <= linspace_sample start stop num i
   /\ linspace_sample start stop num i <= stop)%Q.
Proof.
  intros Hle Hnum Hi. unfold linspace_sample.
  destruct (0 <? num - 1) eqn:E; [|lia].
  set (div := inject_Z (num - 1)). set (delta := (stop - start)%Q).
  assert (Hdiv : (0 < div)%Q).
  { unfold div, Qlt. simpl. lia. }
  assert (Hdelta : (0 <= delta)%Q).
  { unfold delta. apply (proj1 (Qle_minus_iff start stop)). exact Hle. }
  assert (Hi0 : (0 <= inject_Z i)%Q).
  { unfold Qle. simpl. lia. }
  assert (Hi1 : (inject_Z i <= div)%Q).
  { unfold div. rewrite <- Zle_Qle. lia. }
  assert (Hstep : (0 <= delta / div)%Q).
  { apply Qle_shift_div_l; [exact Hdiv|]. now rewrite Qmult_0_l. }
  assert (Hsame : (inject_Z i / div * delta == inject_Z i * (delta / div))%Q).
  { field. intros Hz. rewrite Hz in Hdiv. now apply Qlt_irrefl in Hdiv. }
  assert (Hlo : (0 <= inject_Z i * (delta / div))%Q)
    by now apply Qmult_le_0_compat.
  assert (Hhi : (inject_Z i * (delta / div) <= delta)%Q).
  { assert (Hd : (div * (delta / div) == delta)%Q).
    { field. intros Hz. rewrite Hz in Hdiv. now apply Qlt_irrefl in Hdiv. }
    rewrite <- Hd at 2. now apply Qmult_le_compat_r. }
  assert (Hstop : (stop == delta + start)%Q) by (unfold delta; ring).
  destruct (Qeq_bool (delta / div) 0).
  - rewrite Hsame. split.
    + rewrite <- (Qplus_0_l start) at 1. now apply Qplus_le_l.
    + rewrite Hstop. now apply Qplus_le_l.
  - split.
    + rewrite <- (Qplus_0_l start) at 1. now apply Qplus_le_l.
    + rewrite Hstop. now apply Qplus_le_l.
Qed.

(** What [linspace] and the cast give for integer bounds [a <= b] and at
    least two samples: [num] timestamps, the first [a], the last [b], all
    of them between. *)
Lemma linspace_datetimes (a b num : Z) :
  a <= b -> 2 <= num ->
  exists x_smooth,
    linspace (inject_Z a) (inject_Z b) num = Ok x_smooth
    /\ Z.of_nat (length x_smooth) = num
    /\ hd_error (to_datetime_float x_smooth) = Some a
    /\ last (to_datetime_float x_smooth) 0 = b
    /\ Forall (fun t => a <= t <= b) (to_datetime_float x_smooth).
Proof.
  intros Hab Hnum. rewrite linspace_samples by lia.
  destruct (1 <? num) eqn:E; [|lia]. cbv zeta.
  set (y := map (linspace_sample (inject_Z a) (inject_Z b) num) (arange num)).
  exists (set_last y (inject_Z b)). split; [reflexivity|].
  assert (Hlen : length y = Z.to_nat num).
  { unfold y. now rewrite length_map, arange_length. }
  assert (Hne : y <> []).
  { intros Hy. rewrite Hy in Hlen. simpl in Hlen. lia. }
  assert (Hbetween : Forall (fun q => (inject_Z a <= q)%Q
                                      /\ (q <= inject_Z b)%Q)
                            (set_last y (inject_Z b))).
  { apply set_last_Forall.
    - unfold y. apply Forall_forall. intros q Hq.
      apply in_map_iff in Hq. destruct Hq as [i [<- Hi]].
      apply arange_range in Hi. apply linspace_sample_between; try lia.
      now rewrite <- Zle_Qle.
    - split; [now rewrite <- Zle_Qle|apply Qle_refl]. }
  repeat split.
  - rewrite set_last_length, Hlen. lia.
  - unfold y. destruct (arange num) as [|i0 [|i1 l]] eqn:Ea.
    + apply (f_equal (@length Z)) in Ea. rewrite arange_length in Ea.
      simpl in Ea. lia.
    + apply (f_equal (@length Z)) in Ea. rewrite arange_length in Ea.
      simpl in Ea. lia.
    + destruct (arange_head num ltac:(lia)) as [l' El'].
      rewrite Ea in El'. injection El' as -> _.
      unfold set_last, to_datetime_float. simpl. f_equal.
      apply float_to_int64_exact, linspace_sample_zero.
  - unfold to_datetime_float.
    rewrite <- (float_to_int64_exact (inject_Z b) b) at 2
      by apply Qeq_refl.
    rewrite <- (set_last_last y (inject_Z b) (inject_Z b) Hne) at 2.
    apply last_map_nonempty. intros Es.
    apply (f_equal (@length Q)) in Es. rewrite set_last_length in Es.
    destruct y; [congruence|discriminate].
  - unfold to_datetime_float. apply Forall_map.
    eapply Forall_impl; [|exact Hbetween].
    intros q [H1 H2]. now apply float_to_int64_bounds.
Qed.

Lemma linspace_length (start stop : Q) (num : Z) (l : list Q) :
  linspace start stop num = Ok l -> Z.of_nat (length l) = num.
Proof.
  unfold linspace. destruct (num <? 0) eqn:E; [discriminate|].
  intros H. injection H as <-.
  assert (forall f : Z -> Q, length (map f (arange num)) = Z.to_nat num)
    by (intros; now rewrite length_map, arange_length).
  destruct (1 <? num); rewrite ?set_last_length;
    destruct (0 <? num - 1); try destruct (Qeq_bool _ 0); rewrite H; lia.
Qed.

End Linspace.
(* ------------------------------------------------------------------ *)
(** ** The smoothing helper *)

Section SmoothLine.

Variables (x : list Z) (y : list (option Q)) (points : Z).
Hypothesis same_length : length x = length y.

Let vx := map fst (valid_pairs x y).
Let vy := map snd (valid_pairs x y).

Lemma valid_x_length : length vx = length (valid_pairs x y).
Proof. apply length_map. Qed.

Lemma fit_succeeds :
  Scipy.strictly_increasing vx = true ->
  (4 <= length (valid_pairs x y))%nat ->
  Scipy.make_interp_spline vx vy
  = Ok {| Scipy.data_x := vx; Scipy.data_y := vy |}.
Proof.
  intros Hinc Hlen. unfold Scipy.make_interp_spline.
  unfold vy at 1. rewrite valid_pairs_no_nan, Hinc. simpl.
  rewrite valid_x_length.
  destruct (Nat.ltb_spec (length (valid_pairs x y)) 4); [lia|reflexivity].
Qed.

(** The spline branch: what it returns when the fit succeeds. *)
Lemma smooth_line_resampled :
  Scipy.strictly_increasing vx = true ->
  (4 <= length (valid_pairs x y))%nat ->
  2 <= points ->
  exists lo hi xs x_smooth,
    smooth_line x y points
    = Ok (AsDatetime xs,
          SplineValues {| Scipy.data_x := vx; Scipy.data_y := vy |}
                       x_smooth)
    /\ (In lo vx /\ Forall (fun t => lo <= t) vx)
    /\ (In hi vx /\ Forall (fun t => t <= hi) vx)
    /\ Z.of_nat (length xs) = points
    /\ length x_smooth = length xs
    /\ hd_error xs = Some lo
    /\ last xs 0 = hi
    /\ Forall (fun t => lo <= t <= hi) xs.
Proof.
  intros Hinc Hlen Hpoints.
  assert (Hne : vx <> []).
  { intros E. apply (f_equal (@length Z)) in E.
    rewrite valid_x_length in E. simpl in E. lia. }
  destruct (linspace_datetimes (Numpy.min vx) (Numpy.max vx) points
              (min_le_max vx Hne) Hpoints)
    as [x_smooth [Hlin [Hcount [Hhd [Hlast Hall]]]]].
  exists (Numpy.min vx), (Numpy.max vx),
    (Pandas.to_datetime_float x_smooth), x_smooth.
  split; [|split; [|split; [|split; [|split; [|split; [|split]]]]]].
  - rewrite (smooth_line_unfold x y points same_length). cbv zeta.
    rewrite length_map.
    destruct (Nat.leb_spec 3 (length (valid_pairs x y))); [|lia].
    fold vx vy. rewrite (fit_succeeds Hinc Hlen). simpl.
    rewrite Hlin. reflexivity.
  - apply min_is_least, Hne.
  - apply max_is_greatest, Hne.
  - unfold Pandas.to_datetime_float. now rewrite length_map.
  - unfold Pandas.to_datetime_float. now rewrite length_map.
  - exact Hhd.
  - exact Hlast.
  - exact Hall.
Qed.


(** C2.  With fewer than three valid pairs [smooth_line] returns the
    valid pairs themselves: the x and the y of every pair whose y is not
    null, in the order of the input, as the series they came in. *)
Theorem smooth_line_fallback_unchanged :
  (length (valid_pairs x y) < 3)%nat ->
  smooth_line x y points
  = Ok (AsInt64 (map fst (filter (fun p => notnull (snd p))
                                 (combine x y))),
        FloatSeries (map snd (filter (fun p => notnull (snd p))
                                     (combine x y))))
  /\ Forall (fun p => snd p <> None)
            (filter (fun p => notnull (snd p)) (combine x y)).
Proof.
  intros Hlen. split; [|apply valid_pairs_notnull].
  rewrite (smooth_line_unfold x y points same_length). cbv zeta.
  rewrite length_map.
  destruct (Nat.leb_spec 3 (length (valid_pairs x y))); [lia|reflexivity].
Qed.

(** C8.  A pair whose x is the null-date sentinel and whose y is not null
    is a valid pair like any other: it is kept by the filter, it is the
    minimum that the resampling starts from, and it is among the data
    handed to the spline fit. *)
Theorem smooth_line_keeps_null_dates (i : nat) (v : Q) :
  Forall (fun t => Pandas.NaT <= t) x ->
  nth_error x i = Some Pandas.NaT ->
  nth_error y i = Some (Some v) ->
  In (Pandas.NaT, Some v) (valid_pairs x y)
  /\ In Pandas.NaT vx
  /\ Numpy.min vx = Pandas.NaT
  /\ Numpy.min vx <= Numpy.max vx
  /\ smooth_line x y points =
     if (3 <=? length vx)%nat then
       spline <- Scipy.make_interp_spline vx vy ;;
       x_smooth <- Numpy.linspace (inject_Z Pandas.NaT)
                                  (inject_Z (Numpy.max vx)) points ;;
       Ok (AsDatetime (Pandas.to_datetime_float x_smooth),
           SplineValues spline x_smooth)
     else Ok (AsInt64 vx, FloatSeries vy).
Proof.
  intros Hint Hx Hy.
  assert (Hin : In (Pandas.NaT, Some v) (valid_pairs x y)).
  { unfold valid_pairs. apply filter_In. split; [|reflexivity].
    clear same_length vx vy Hint. revert y i Hx Hy.
    induction x as [|a l IH]; intros [|b l'] [|i] Hx Hy;
      simpl in *; try discriminate.
    - injection Hx as ->. injection Hy as ->. now left.
    - right. eapply IH; eassumption. }
  assert (Hvx : In Pandas.NaT vx).
  { unfold vx. apply in_map_iff. exists (Pandas.NaT, Some v). now split. }
  assert (Hne : vx <> []) by (intros E; rewrite E in Hvx; exact Hvx).
  assert (Hmin : Numpy.min vx = Pandas.NaT).
  { destruct (min_is_least vx Hne) as [Hmin_in Hmin_le].
    rewrite Forall_forall in Hmin_le. specialize (Hmin_le _ Hvx).
    assert (Hge : Pandas.NaT <= Numpy.min vx).
    { rewrite Forall_forall in Hint. apply Hint.
      now apply (valid_x_in x y). }
    lia. }
  repeat split; try assumption.
  - apply min_le_max, Hne.
  - rewrite (smooth_line_unfold x y points same_length). cbv zeta.
    fold vx vy. rewrite Hmin. reflexivity.
Qed.

End SmoothLine.




(** At exactly three valid pairs the guard of [smooth_line] lets the fit
    run, and the cubic fit refuses three points. *)
Example smooth_line_three_points :
  smooth_line [0; 10; 20] [Some 1%Q; Some 2%Q; Some 3%Q] default_points
  = Raise (ValueError TooFewDataPoints).
Proof. reflexivity. Qed.

(** With one sample asked for, the curve is the least x alone. *)
Example smooth_line_one_point :
  option_map fst
    (match smooth_line [0; 10; 20; 30]
                       [Some 1%Q; Some 2%Q; Some 3%Q; Some 4%Q] 1 with
     | Ok r => Some r
     | Raise _ => None
     end)
  = Some (AsDatetime [0]).
Proof. reflexivity. Qed.

Lemma smooth_line_fallback_unchanged_witness :
  length [5; 6; 7] = length [Some 1%Q; None; Some 3%Q]
  /\ (length (valid_pairs [5; 6; 7]%Z [Some 1%Q; None; Some 3%Q]) < 3)%nat
  /\ smooth_line [5; 6; 7] [Some 1%Q; None; Some 3%Q] default_points
     = Ok (AsInt64 [5; 7], FloatSeries [Some 1%Q; Some 3%Q]).
Proof.
  split; [reflexivity|]. split; [exact (le_n 3)|].
  exact (proj1 (smooth_line_fallback_unchanged
                  [5; 6; 7] [Some 1%Q; None; Some 3%Q] default_points
                  eq_refl (le_n 3))).
Defined.

Lemma smooth_line_keeps_null_dates_witness :
  nth_error [0; 10; Pandas.NaT] 2 = Some Pandas.NaT
  /\ nth_error [Some 1%Q; None; Some 3%Q] 2 = Some (Some 3%Q)
  /\ In (Pandas.NaT, Some 3%Q)
        (valid_pairs [0; 10; Pandas.NaT] [Some 1%Q; None; Some 3%Q])
  /\ Numpy.min
       (map fst (valid_pairs [0; 10; Pandas.NaT]
                             [Some 1%Q; None; Some 3%Q]))
     = Pandas.NaT.
Proof.
  split; [reflexivity|]. split; [reflexivity|].
  assert (Hint : Forall (fun t => Pandas.NaT <= t) [0; 10; Pandas.NaT]).
  { repeat constructor; discriminate. }
  destruct (smooth_line_keeps_null_dates
              [0; 10; Pandas.NaT] [Some 1%Q; None; Some 3%Q] default_points
              eq_refl 2 3%Q Hint eq_refl eq_refl) as [H1 [_ [H2 _]]].
  split; [exact H1|exact H2].
Defined.


(* ------------------------------------------------------------------ *)
(** ** [sort_values] *)

Section SortValues.

Import Pandas.

Context {A : Type} (key : A -> Z).

Lemma insert_by_perm (a : A) (l : list A) :
  Permutation (a :: l) (insert_by key a l).
Proof.
  induction l as [|b l IH]; simpl; [reflexivity|].
  destruct (key b <? key a); [|reflexivity].
  rewrite perm_swap. now constructor.
Qed.

Lemma argsort_rows_perm (l : list A) : Permutation l (argsort_rows key l).
Proof.
  induction l as [|a l IH]; simpl; [constructor|].
  rewrite <- insert_by_perm. now constructor.
Qed.

Lemma insert_by_sorted (a : A) (l : list A) :
  StronglySorted (fun u v => key u <= key v) l ->
  StronglySorted (fun u v => key u <= key v) (insert_by key a l).
Proof.
  induction 1 as [|b l Hs IH Hb]; simpl.
  - constructor; constructor.
  - destruct (Z.ltb_spec (key b) (key a)).
    + constructor; [exact IH|].
      rewrite <- insert_by_perm. constructor; [lia|exact Hb].
    + constructor; [now constructor|].
      constructor; [lia|]. eapply Forall_impl; [|exact Hb].
      simpl. intros; lia.
Qed.

Lemma argsort_rows_sorted (l : list A) :
  StronglySorted (fun u v => key u <= key v) (argsort_rows key l).
Proof.
  induction l as [|a l IH]; simpl; [constructor|].
  now apply insert_by_sorted.
Qed.

Lemma filter_partition_perm (f : A -> bool) (l : list A) :
  Permutation l (filter (fun a => negb (f a)) l ++ filter f l).
Proof.
  induction l as [|a l IH]; simpl; [constructor|].
  destruct (f a); simpl.
  - now apply Permutation_cons_app.
  - now constructor.
Qed.

Lemma sort_values_perm (df : list A) : Permutation df (sort_values key df).
Proof.
  unfold sort_values. rewrite <- argsort_rows_perm.
  apply filter_partition_perm.
Qed.

Lemma sort_values_dated (df : list A) :
  Forall (fun a => key a <> NaT)
         (argsort_rows key (filter (fun a => negb (isna key a)) df)).
Proof.
  rewrite <- argsort_rows_perm. apply Forall_forall. intros a Ha.
  apply filter_In in Ha. destruct Ha as [_ Ha]. unfold isna in Ha.
  destruct (Z.eqb_spec (key a) NaT); [discriminate|assumption].
Qed.

Lemma sort_values_undated (df : list A) :
  Forall (fun a => key a = NaT) (filter (isna key) df).
Proof.
  apply Forall_forall. intros a Ha. apply filter_In in Ha.
  destruct Ha as [_ Ha]. now apply Z.eqb_eq.
Qed.

End SortValues.

Lemma StronglySorted_map {A} (key : A -> Z) (l : list A) :
  StronglySorted (fun u v => key u <= key v) l ->
  StronglySorted Z.le (map key l).
Proof.
  induction 1 as [|a l Hs IH Ha]; simpl; constructor; [exact IH|].
  now apply Forall_map.
Qed.

(* ------------------------------------------------------------------ *)
(** ** The loader *)

Section Loader.

Import Pandas.

Variable csv : list Raw.row.

Lemma finish_row_date (p : Z * Raw.row) : release_date (finish_row p) = fst p.
Proof. now destruct p. Qed.

Lemma filter_map_swap {A B} (f : A -> B) (p : B -> bool) (l : list A) :
  filter p (map f l) = map f (filter (fun a => p (f a)) l).
Proof.
  induction l as [|a l IH]; simpl; [reflexivity|].
  destruct (p (f a)); simpl; now rewrite IH.
Qed.

Lemma load_split :
  load csv
  = map finish_row
        (argsort_rows fst (map parse_release_date (filter parses csv)))
    ++ map loaded (filter (fun r => negb (parses r)) csv).
Proof.
  unfold load, sort_values. rewrite map_app, !filter_map_swap, map_map.
  assert (E : filter (fun a => isna fst (parse_release_date a)) csv
              = filter (fun r => negb (parses r)) csv).
  { apply filter_ext. intros r. unfold parses, isna. simpl.
    now rewrite negb_involutive. }
  rewrite E. reflexivity.
Qed.

Lemma load_perm : Permutation (map loaded csv) (load csv).
Proof.
  unfold load. rewrite <- (map_map parse_release_date finish_row).
  apply Permutation_map, sort_values_perm.
Qed.

Lemma dated_part_perm :
  Permutation
    (map finish_row
         (argsort_rows fst (map parse_release_date (filter parses csv))))
    (map loaded (filter parses csv)).
Proof.
  rewrite <- (map_map parse_release_date finish_row).
  apply Permutation_map. symmetry. apply argsort_rows_perm.
Qed.

Lemma dated_part_has_date :
  Forall (fun r => release_date r <> NaT)
    (map finish_row
         (argsort_rows fst (map parse_release_date (filter parses csv)))).
Proof.
  rewrite dated_part_perm. apply Forall_map, Forall_forall.
  intros r Hr. apply filter_In in Hr. destruct Hr as [_ Hr].
  unfold parses in Hr. unfold loaded. rewrite finish_row_date. simpl.
  destruct (Z.eqb_spec (to_datetime (Raw.release_date r)) NaT);
    [discriminate|assumption].
Qed.

Lemma dated_part_sorted :
  StronglySorted Z.le
    (map release_date
       (map finish_row
          (argsort_rows fst
             (map parse_release_date (filter parses csv))))).
Proof.
  rewrite map_map. erewrite map_ext; [|apply finish_row_date].
  apply StronglySorted_map, argsort_rows_sorted.
Qed.

Lemma undated_part_no_date :
  Forall (fun r => release_date r = NaT)
         (map loaded (filter (fun r => negb (parses r)) csv)).
Proof.
  apply Forall_map, Forall_forall. intros r Hr.
  apply filter_In in Hr. destruct Hr as [_ Hr]. unfold parses in Hr.
  rewrite negb_involutive in Hr. unfold loaded.
  rewrite finish_row_date. simpl. now apply Z.eqb_eq.
Qed.

Lemma filter_all {A} (p : A -> bool) (l : list A) :
  Forall (fun a => p a = true) l -> filter p l = l.
Proof.
  induction 1 as [|a l Ha Hl IH]; simpl; [reflexivity|].
  now rewrite Ha, IH.
Qed.

Lemma filter_none {A} (p : A -> bool) (l : list A) :
  Forall (fun a => p a = false) l -> filter p l = [].
Proof.
  induction 1 as [|a l Ha Hl IH]; simpl; [reflexivity|].
  now rewrite Ha, IH.
Qed.

(** C3, as amended.  The loader drops no row: every row of the file is in
    the frame exactly once, a row whose date does not parse with the null
    date; and the rows of the frame that have a date are in ascending
    order of it. *)
Theorem load_keeps_rows_sorts_dated :
  Permutation (map loaded csv) (load csv)
  /\ length (load csv) = length csv
  /\ (forall raw, In raw csv -> parses raw = false ->
        In (loaded raw) (load csv) /\ release_date (loaded raw) = NaT)
  /\ StronglySorted Z.le (map release_date (filter has_date (load csv))).
Proof.
  split; [apply load_perm|]. split; [|split].
  - rewrite <- (Permutation_length load_perm). apply length_map.
  - intros raw Hin Hp. split.
    + rewrite <- load_perm. now apply in_map.
    + unfold loaded. rewrite finish_row_date. simpl. unfold parses in Hp.
      apply Z.eqb_eq. now destruct (_ =? _).
  - rewrite load_split, filter_app.
    rewrite (filter_all has_date), (filter_none has_date), app_nil_r.
    + apply dated_part_sorted.
    + eapply Forall_impl; [|apply undated_part_no_date].
      intros r Hr. unfold has_date. rewrite Hr. reflexivity.
    + eapply Forall_impl; [|apply dated_part_has_date].
      intros r Hr. unfold has_date.
      now destruct (Z.eqb_spec (release_date r) NaT).
Qed.

(** C9.  The frame is the rows with a date, in ascending order of it,
    followed by the rows whose date did not parse, all of them kept, null
    date and all, in the order of the file; and it is this frame that the
    chart is built from. *)
Theorem load_nulls_last :
  exists dated undated,
    load csv = dated ++ undated
    /\ Permutation dated (map loaded (filter parses csv))
    /\ Forall (fun r => release_date r <> NaT) dated
    /\ StronglySorted Z.le (map release_date dated)
    /\ undated = map loaded (filter (fun r => negb (parses r)) csv)
    /\ Forall (fun r => release_date r = NaT) undated
    /\ update_graph csv = build_figure (dated ++ undated).
Proof.
  eexists. eexists. split; [apply load_split|].
  split; [apply dated_part_perm|].
  split; [apply dated_part_has_date|].
  split; [apply dated_part_sorted|].
  split; [reflexivity|].
  split; [apply undated_part_no_date|].
  unfold update_graph. cbv zeta. now rewrite load_split.
Qed.

End Loader.

(** C3, as stated, does not hold: a row whose date does not parse is not
    dropped, it is in the frame with the null date. *)
Lemma load_keeps_unparseable_row :
  ~ (forall csv,
        (forall raw, In raw csv -> parses raw = false ->
                     ~ In (loaded raw) (load csv))
        /\ StronglySorted Z.le (map release_date (load csv))).
Proof.
  intros H. destruct (H [undated_movie]) as [Hdrop _].
  apply (Hdrop undated_movie); [now left|reflexivity|].
  left. reflexivity.
Qed.

(** With a dated row in the file too, the dates of the frame are not in
    ascending order either: the null date is the smallest int64 and comes
    last. *)
Example load_null_date_last :
  map release_date (load [undated_movie; early_movie; short_day_movie])
  = [1493942400000000000; Pandas.NaT; Pandas.NaT].
Proof. vm_compute. reflexivity. Qed.

Lemma load_keeps_rows_sorts_dated_witness :
  In undated_movie [undated_movie; early_movie; short_day_movie]
  /\ parses undated_movie = false
  /\ In (loaded undated_movie)
        (load [undated_movie; early_movie; short_day_movie])
  /\ release_date (loaded undated_movie) = Pandas.NaT.
Proof.
  assert (Hin : In undated_movie
                   [undated_movie; early_movie; short_day_movie])
    by (left; reflexivity).
  split; [exact Hin|]. split; [reflexivity|].
  exact (proj1 (proj2 (proj2
           (load_keeps_rows_sorts_dated
              [undated_movie; early_movie; short_day_movie])))
           undated_movie Hin eq_refl).
Defined.

(* ------------------------------------------------------------------ *)
(** ** Digits *)

(** Case analysis on an integer of a known range. *)
Lemma in_range_enum (lo : Z) (n : nat) (k : Z) :
  lo <= k < lo + Z.of_nat n -> In k (zrange lo n).
Proof.
  intros H. apply in_map_iff. exists (Z.to_nat (k - lo)). split; [lia|].
  apply in_seq. lia.
Qed.

Ltac enum k lo n H :=
  let Hin := fresh "Hin" in
  pose proof (in_range_enum lo n k H) as Hin;
  unfold zrange in Hin;
  simpl in Hin;
  repeat (destruct Hin as [Hin|Hin]; [subst k|]); [..|contradiction].

Section Digits.

Import Chars.

Lemma digit_char_is_digit (k : Z) :
  0 <= k <= 9 ->
  is_digit (digit_char k) = true
  /\ digit_value (digit_char k) = k
  /\ is_space (digit_char k) = false.
Proof.
  intros H. assert (H' : 0 <= k < 0 + Z.of_nat 10) by lia.
  enum k 0 10%nat H'; repeat split; reflexivity.
Qed.

Lemma is_digit_char (c : ascii) :
  is_digit c = true ->
  c = digit_char (digit_value c) /\ 0 <= digit_value c <= 9.
Proof.
  destruct c as [[] [] [] [] [] [] [] []]; intros H;
    try discriminate H; split; try reflexivity;
    unfold digit_value; simpl; lia.
Qed.

Lemma two_digits_of (a b : Z) :
  0 <= a <= 9 -> 0 <= b <= 9 ->
  two_digits (10 * a + b)
  = String (digit_char a) (String (digit_char b) EmptyString).
Proof.
  intros Ha Hb. unfold two_digits.
  replace ((10 * a + b) / 10) with a by (Z.div_mod_to_equations; lia).
  replace ((10 * a + b) mod 10) with b by (Z.div_mod_to_equations; lia).
  reflexivity.
Qed.

Lemma four_digits_of (a b c d : Z) :
  0 <= a <= 9 -> 0 <= b <= 9 -> 0 <= c <= 9 -> 0 <= d <= 9 ->
  four_digits (1000 * a + 100 * b + 10 * c + d)
  = String (digit_char a) (String (digit_char b)
      (String (digit_char c) (String (digit_char d) EmptyString))).
Proof.
  intros Ha Hb Hc Hd. unfold four_digits.
  set (y := 1000 * a + 100 * b + 10 * c + d).
  replace (y / 1000) with a by (unfold y; Z.div_mod_to_equations; lia).
  replace (y / 100 mod 10) with b
    by (unfold y; Z.div_mod_to_equations; lia).
  replace (y mod 100) with (10 * c + d)
    by (unfold y; Z.div_mod_to_equations; lia).
  now rewrite two_digits_of.
Qed.

End Digits.

(* ------------------------------------------------------------------ *)
(** ** Parsing a date of the canonical shape *)

Section Strptime.

Import Calendar Chars Pandas.

Lemma parse_month_abbr (m : Z) (rest : string) :
  1 <= m <= 12 ->
  parse_month (nth (Z.to_nat (m - 1)) month_abbr EmptyString ++ rest)
  = Some (m, rest).
Proof.
  intros H. assert (H' : 1 <= m < 1 + Z.of_nat 12) by lia.
  enum m 1 12%nat H'; reflexivity.
Qed.

Lemma parse_spaces_digit (k : Z) (rest : string) :
  0 <= k <= 9 ->
  parse_spaces (String " " (String (digit_char k) rest))
  = Some (String (digit_char k) rest).
Proof.
  intros H. destruct (digit_char_is_digit k H) as [_ [_ Hs]].
  unfold parse_spaces. simpl. now rewrite Hs.
Qed.

Lemma parse_day_comma {B} (d : Z) (rest : string)
  (k : Z -> string -> option B) :
  0 <= d <= 99 ->
  obind (parse_day (two_digits d ++ String "," rest))
        (fun '(d', s3) => obind (parse_comma s3) (k d'))
  = if (1 <=? d) && (d <=? 31) then k d rest else None.
Proof.
  intros H. assert (H' : 0 <= d < 0 + Z.of_nat 100) by lia.
  enum d 0 100%nat H'; reflexivity.
Qed.

Lemma parse_year_four_digits (y : Z) :
  0 <= y <= 9999 -> parse_year (four_digits y) = Some (y, EmptyString).
Proof.
  intros H. unfold four_digits, two_digits, parse_year.
  destruct (digit_char_is_digit (y / 1000)) as [D1 [V1 _]];
    [Z.div_mod_to_equations; lia|].
  destruct (digit_char_is_digit (y / 100 mod 10)) as [D2 [V2 _]];
    [Z.div_mod_to_equations; lia|].
  destruct (digit_char_is_digit (y mod 100 / 10)) as [D3 [V3 _]];
    [Z.div_mod_to_equations; lia|].
  destruct (digit_char_is_digit (y mod 100 mod 10)) as [D4 [V4 _]];
    [Z.div_mod_to_equations; lia|].
  rewrite D1, D2, D3, D4, V1, V2, V3, V4. cbn [andb]. do 2 f_equal.
  Z.div_mod_to_equations; lia.
Qed.

Lemma strptime_canonical (m d y : Z) :
  1 <= m <= 12 -> 0 <= d <= 99 -> 0 <= y <= 9999 ->
  strptime (canonical m d y)
  = if (1 <=? d) && (d <=? 31) then Some (y, m, d) else None.
Proof.
  intros Hm Hd Hy. unfold strptime, canonical.
  rewrite parse_month_abbr by exact Hm. cbn [obind].
  unfold two_digits at 1.
  change (" " ++ String (digit_char (d / 10))
                  (String (digit_char (d mod 10)) EmptyString)
              ++ ", " ++ four_digits y)%string
    with (String " " (String (digit_char (d / 10))
            (String (digit_char (d mod 10))
               (String "," (String " " (four_digits y)))))).
  rewrite parse_spaces_digit by (Z.div_mod_to_equations; lia).
  cbn [obind].
  change (String (digit_char (d / 10))
            (String (digit_char (d mod 10))
               (String "," (String " " (four_digits y)))))
    with (two_digits d ++ String "," (String " " (four_digits y)))%string.
  rewrite (parse_day_comma d (String " " (four_digits y))
             (fun d' s4 =>
                obind (parse_spaces s4) (fun s5 =>
                obind (parse_year s5) (fun '(y', s6) =>
                match s6 with
                | EmptyString => Some (y', m, d')
                | String _ _ => None
                end)))) by exact Hd.
  destruct ((1 <=? d) && (d <=? 31)); [|reflexivity].
  unfold four_digits at 1.
  rewrite parse_spaces_digit by (Z.div_mod_to_equations; lia).
  cbn [obind]. fold (four_digits y).
  rewrite parse_year_four_digits by exact Hy. reflexivity.
Qed.

(** A string of the shape "Mon DD, YYYY" is the canonical string of its
    month, its two digits and its four digits. *)
Lemma well_formed_canonical (s : string) :
  well_formed s = true ->
  exists m d y,
    1 <= m <= 12 /\ 0 <= d <= 99 /\ 0 <= y <= 9999
    /\ s = canonical m d y.
Proof.
  destruct s as [|m1 [|m2 [|m3 [|s1 [|d1 [|d2 [|c [|s2 [|y1 [|y2 [|y3
    [|y4 [|? ?]]]]]]]]]]]]]; try discriminate.
  unfold well_formed. rewrite !andb_true_iff.
  intros [[[[[[[[[Hm Hs1] Hd1] Hd2] Hc] Hs2] Hy1] Hy2] Hy3] Hy4].
  apply Ascii.eqb_eq in Hs1, Hc, Hs2. subst s1 c s2.
  apply is_digit_char in Hd1, Hd2, Hy1, Hy2, Hy3, Hy4.
  destruct Hd1 as [Ed1 Rd1], Hd2 as [Ed2 Rd2], Hy1 as [Ey1 Ry1],
    Hy2 as [Ey2 Ry2], Hy3 as [Ey3 Ry3], Hy4 as [Ey4 Ry4].
  apply existsb_exists in Hm. destruct Hm as [name [Hname Heq]].
  apply String.eqb_eq in Heq.
  assert (Hmonth : exists m, 1 <= m <= 12
            /\ nth (Z.to_nat (m - 1)) month_abbr EmptyString = name).
  { simpl in Hname.
    repeat (destruct Hname as [<-|Hname];
            [match goal with
             | |- exists m, _ /\ nth _ _ _ = ?n =>
                 first [ exists 1; split; [lia|reflexivity]
                       | exists 2; split; [lia|reflexivity]
                       | exists 3; split; [lia|reflexivity]
                       | exists 4; split; [lia|reflexivity]
                       | exists 5; split; [lia|reflexivity]
                       | exists 6; split; [lia|reflexivity]
                       | exists 7; split; [lia|reflexivity]
                       | exists 8; split; [lia|reflexivity]
                       | exists 9; split; [lia|reflexivity]
                       | exists 10; split; [lia|reflexivity]
                       | exists 11; split; [lia|reflexivity]
                       | exists 12; split; [lia|reflexivity] ]
             end|]).
    contradiction. }
  destruct Hmonth as [m [Hm Hnth]].
  exists m, (10 * digit_value d1 + digit_value d2),
    (1000 * digit_value y1 + 100 * digit_value y2
     + 10 * digit_value y3 + digit_value y4).
  split; [exact Hm|]. split; [lia|]. split; [lia|].
  unfold canonical. rewrite Hnth, <- Heq.
  rewrite two_digits_of, four_digits_of by assumption.
  rewrite <- Ed1, <- Ed2, <- Ey1, <- Ey2, <- Ey3, <- Ey4. reflexivity.
Qed.

End Strptime.

(* ------------------------------------------------------------------ *)
(** ** Formatting the parsed date *)

Section RoundTrip.

Import Calendar Chars Pandas.

Lemma timestamp_year_range (y m d : Z) :
  1 <= m <= 12 -> 1 <= d <= 31 ->
  NaT < days_from_civil y m d * ns_per_day <= int64_max ->
  1677 <= y <= 2262.
Proof.
  intros Hm Hd. unfold days_from_civil, NaT, int64_max, ns_per_day.
  change (2 ^ 63) with 9223372036854775808.
  change (86400 * 10 ^ 9) with 86400000000000.
  destruct (m <=? 2) eqn:E1; destruct (2 <? m) eqn:E2;
    intros H; Z.div_mod_to_equations; lia.
Qed.

Lemma is_leap_true (y : Z) :
  is_leap y = true -> y mod 4 = 0 /\ (y mod 100 <> 0 \/ y mod 400 = 0).
Proof.
  unfold is_leap. intros H. apply orb_true_iff in H.
  destruct H as [H|H].
  - apply andb_true_iff in H. destruct H as [H4 H100].
    apply Z.eqb_eq in H4. apply negb_true_iff, Z.eqb_neq in H100. tauto.
  - apply Z.eqb_eq in H. split; [|now right].
    Z.div_mod_to_equations; lia.
Qed.

(** The day of the year that starts in March, and the month it falls in. *)
Lemma month_of_day_of_year (mp d : Z) :
  0 <= mp <= 11 -> 1 <= d ->
  (153 * mp + 2) / 5 + d - 1 < (153 * (mp + 1) + 2) / 5 ->
  let doy := (153 * mp + 2) / 5 + d - 1 in
  (5 * doy + 2) / 153 = mp.
Proof. intros Hmp Hd Hlt doy. unfold doy in *. Z.div_mod_to_equations; lia. Qed.

Lemma year_of_era (yoe doy : Z) :
  0 <= yoe <= 399 -> 0 <= doy <= 365 ->
  (doy = 365 ->
   (yoe + 1) mod 4 = 0 /\ ((yoe + 1) mod 100 <> 0 \/ yoe = 399)) ->
  let doe := yoe * 365 + yoe / 4 - yoe / 100 + doy in
  0 <= doe <= 146096
  /\ (doe - doe / 1460 + doe / 36524 - doe / 146096) / 365 = yoe.
Proof.
  intros Hy Hd Hleap doe. unfold doe.
  split; Z.div_mod_to_equations; lia.
Qed.

Lemma civil_from_days_from_civil (y m d : Z) :
  1 <= m <= 12 -> 1 <= d <= days_in_month y m ->
  civil_from_days (days_from_civil y m d) = (y, m, d).
Proof.
  intros Hm Hd. unfold days_from_civil.
  set (y' := if m <=? 2 then y - 1 else y).
  set (mp := if 2 <? m then m - 3 else m + 9).
  set (era := y' / 400). set (yoe := y' - era * 400).
  set (doy := (153 * mp + 2) / 5 + d - 1).
  set (doe := yoe * 365 + yoe / 4 - yoe / 100 + doy).
  assert (Hyoe : 0 <= yoe <= 399)
    by (unfold yoe, era; Z.div_mod_to_equations; lia).
  assert (Hmp : 0 <= mp <= 11) by (unfold mp; destruct (2 <? m) eqn:E; lia).
  assert (Hdoy : 0 <= doy <= 365
                 /\ doy < (153 * (mp + 1) + 2) / 5
                 /\ (doy = 365 -> m = 2 /\ d = 29)).
  { unfold doy, mp. unfold days_in_month in Hd.
    assert (H' : 1 <= m < 1 + Z.of_nat 12) by lia.
    pose proof (in_range_enum 1 12 m H') as Hin. unfold zrange in Hin.
    simpl in Hin.
    repeat (destruct Hin as [Hin|Hin]; [subst m|]); [..|contradiction];
      lazy beta iota delta [Z.ltb Z.compare Pos.compare Pos.compare_cont]
        in Hd |- *;
      try (destruct (is_leap y) in Hd); Z.div_mod_to_equations; lia. }
  destruct Hdoy as [Hdoy [Hnext H365]].
  assert (Hleap : doy = 365 ->
            (yoe + 1) mod 4 = 0 /\ ((yoe + 1) mod 100 <> 0 \/ yoe = 399)).
  { intros E. destruct (H365 E) as [-> ->]. unfold days_in_month in Hd.
    destruct (is_leap y) eqn:L; [|lia]. apply is_leap_true in L.
    unfold yoe, era, y'. cbn. Z.div_mod_to_equations; lia. }
  destruct (year_of_era yoe doy Hyoe Hdoy Hleap) as [Hdoe Hinv].
  fold doe in Hdoe, Hinv.
  unfold civil_from_days. cbv zeta.
  replace (era * 146097 + doe - 719468 + 719468) with (era * 146097 + doe)
    by lia.
  replace ((era * 146097 + doe) / 146097) with era
    by (Z.div_mod_to_equations; lia).
  replace (era * 146097 + doe - era * 146097) with doe by lia.
  rewrite Hinv.
  replace (doe - (365 * yoe + yoe / 4 - yoe / 100)) with doy
    by (unfold doe; lia).
  assert (Hmonth : (5 * doy + 2) / 153 = mp).
  { apply (month_of_day_of_year mp d Hmp); [lia|exact Hnext]. }
  rewrite Hmonth.
  replace (doy - (153 * mp + 2) / 5 + 1) with d by (unfold doy; lia).
  unfold mp, yoe, y'.
  destruct (2 <? m) eqn:E2; destruct (m <=? 2) eqn:E1; try lia.
  - destruct (m - 3 <? 10) eqn:E3.
    + replace (m - 3 + 3 <=? 2) with false by lia.
      f_equal. f_equal; lia. 
    + replace (m - 3 - 9 <=? 2) with true by lia. lia.
  - destruct (m + 9 <? 10) eqn:E3; [lia|].
    replace (m + 9 - 9 <=? 2) with true by lia.
    f_equal. f_equal; lia.
Qed.

Lemma days_in_month_le_31 (y m : Z) : days_in_month y m <= 31.
Proof.
  unfold days_in_month.
  repeat match goal with
         | |- context [match ?x with _ => _ end] => destruct x
         end; lia.
Qed.

Lemma decimal_year_table :
  forallb (fun y => String.eqb (decimal y) (four_digits y))
          (zrange 1677 586) = true.
Proof. vm_compute. reflexivity. Qed.

Lemma decimal_year (y : Z) :
  1677 <= y <= 2262 -> decimal y = four_digits y.
Proof.
  intros H. apply String.eqb_eq.
  apply (proj1 (forallb_forall _ _) decimal_year_table).
  apply in_range_enum. lia.
Qed.

(** The formatted date of a timestamp at midnight of a day the calendar
    has. *)
Lemma strftime_canonical (y m d : Z) :
  1 <= m <= 12 -> 1 <= d <= days_in_month y m ->
  NaT < days_from_civil y m d * ns_per_day <= int64_max ->
  strftime (days_from_civil y m d * ns_per_day) = Some (canonical m d y).
Proof.
  intros Hm Hd Hns. unfold strftime.
  destruct (Z.eqb_spec (days_from_civil y m d * ns_per_day) NaT); [lia|].
  rewrite Z.div_mul by discriminate.
  rewrite (civil_from_days_from_civil y m d Hm Hd).
  unfold canonical. rewrite decimal_year; [reflexivity|].
  apply (timestamp_year_range y m d Hm); [|exact Hns].
  pose proof (days_in_month_le_31 y m). lia.
Qed.

(** The round trip on one cell: a string of the shape "Mon DD, YYYY" that
    parses to a timestamp is formatted back to itself. *)
Lemma strftime_to_datetime (s : string) :
  well_formed s = true ->
  to_datetime (Some s) <> NaT ->
  strftime (to_datetime (Some s)) = Some s.
Proof.
  intros Hwf Hparse.
  destruct (well_formed_canonical s Hwf) as [m [d [y [Hm [Hd [Hy ->]]]]]].
  unfold to_datetime in *.
  rewrite (strptime_canonical m d y Hm Hd Hy) in *.
  destruct ((1 <=? d) && (d <=? 31)) eqn:Ed; [|congruence].
  apply andb_true_iff in Ed. destruct Ed as [Ed1 Ed2].
  destruct (Z.leb_spec d (days_in_month y m)); [|congruence].
  destruct ((NaT <? days_from_civil y m d * ns_per_day)
            && (days_from_civil y m d * ns_per_day <=? int64_max)) eqn:En;
    [|congruence].
  apply andb_true_iff in En. destruct En as [En1 En2].
  apply strftime_canonical; lia.
Qed.

End RoundTrip.

(** C5, as amended.  For every row of the file whose release date has the
    shape "Mon DD, YYYY" and parses to a timestamp, the row is in the
    frame and its formatted date is the original string. *)
Theorem formatted_date_round_trip (csv : list Raw.row) (r : Raw.row)
  (s : string) :
  In r csv ->
  Raw.release_date r = Some s ->
  well_formed s = true ->
  parses r = true ->
  In (loaded r) (load csv)
  /\ formatted_release_date (loaded r) = Some s.
Proof.
  intros Hin Hs Hwf Hp. split.
  - rewrite <- (load_perm csv). now apply in_map.
  - unfold loaded, parse_release_date, finish_row, parses in *.
    simpl. rewrite Hs in *. apply strftime_to_datetime; [exact Hwf|].
    intros E. rewrite E in Hp. discriminate Hp.
Qed.

(** C5, as stated, does not hold, whichever rows are taken as well
    formed: a date of the shape "Mon DD, YYYY" before the year 1677 has
    no timestamp and is formatted as NaN, and a date that the parser
    accepts with a one-digit day is formatted with two. *)
Lemma formatted_date_differs :
  ~ (forall r s, Raw.release_date r = Some s -> well_formed s = true ->
                 formatted_release_date (loaded r) = Some s)
  /\ ~ (forall r s, Raw.release_date r = Some s -> parses r = true ->
                    formatted_release_date (loaded r) = Some s).
Proof.
  split; intros H.
  - specialize (H early_movie "Jan 01, 1500"%string eq_refl eq_refl).
    vm_compute in H. discriminate H.
  - specialize (H short_day_movie "May 5, 2017"%string eq_refl eq_refl).
    vm_compute in H. discriminate H.
Qed.

Example formatted_short_day :
  formatted_release_date (loaded short_day_movie)
  = Some "May 05, 2017"%string.
Proof. vm_compute. reflexivity. Qed.

Lemma formatted_date_round_trip_witness :
  In (movie "Five" (Some "Dec 18, 2015"%string) (Some 5%Q) (Numeric 4))
     five_movies
  /\ well_formed "Dec 18, 2015" = true
  /\ In (loaded (movie "Five" (Some "Dec 18, 2015"%string) (Some 5%Q)
                       (Numeric 4)))
        (load five_movies)
  /\ formatted_release_date
       (loaded (movie "Five" (Some "Dec 18, 2015"%string) (Some 5%Q)
                      (Numeric 4)))
     = Some "Dec 18, 2015"%string.
Proof.
  assert (Hin : In (movie "Five" (Some "Dec 18, 2015"%string) (Some 5%Q)
                          (Numeric 4)) five_movies).
  { right. right. left. reflexivity. }
  split; [exact Hin|]. split; [reflexivity|].
  exact (formatted_date_round_trip five_movies _ "Dec 18, 2015"
           Hin eq_refl eq_refl eq_refl).
Defined.

(* ------------------------------------------------------------------ *)
(** ** Timestamps as binary64 numbers *)

Section Binary64.

Import Calendar Pandas.

Lemma midnight_is_binary64 (days : Z) :
  NaT <= days * ns_per_day <= int64_max ->
  is_binary64 (days * ns_per_day).
Proof.
  unfold NaT, int64_max, ns_per_day, is_binary64.
  change (2 ^ 63) with 9223372036854775808.
  change (86400 * 10 ^ 9) with 86400000000000.
  intros H. exists (days * 1318359375), 16. split; [|split].
  - change (2 ^ 16) with 65536. lia.
  - lia.
  - change (2 ^ 53) with 9007199254740992. lia.
Qed.

(** Every date of the frame, the null date too, is a binary64 number: the
    bounds that [linspace] gets from [update_graph] are exact. *)
Lemma to_datetime_is_binary64 (v : option string) :
  is_binary64 (to_datetime v).
Proof.
  assert (Hnat : is_binary64 NaT).
  { exists (-1), 63. split; [reflexivity|]. split; [lia|].
    change (2 ^ 53) with 9007199254740992. simpl. lia. }
  unfold to_datetime. destruct v as [s|]; [|exact Hnat].
  destruct (strptime s) as [[[y m] d]|]; [|exact Hnat].
  destruct (d <=? days_in_month y m); [|exact Hnat].
  destruct ((NaT <? days_from_civil y m d * ns_per_day)
            && (days_from_civil y m d * ns_per_day <=? int64_max)) eqn:E;
    [|exact Hnat].
  apply andb_true_iff in E. destruct E as [E1 E2].
  apply midnight_is_binary64. lia.
Qed.

End Binary64.

(* ------------------------------------------------------------------ *)
(** ** The franchise catalogue *)

Section Catalogue.

Lemma dict_set_nonempty {V} (d : list (string * V)) (k : string) (v : V) :
  Str.dict_set d k v <> [].
Proof.
  destruct d as [|[k' v'] d]; simpl; [discriminate|].
  destruct (String.eqb k' k); discriminate.
Qed.

Lemma fold_dict_set_nonempty (csvs : list string)
  (d : list (string * string)) :
  d <> [] ->
  fold_left
    (fun d csv => Str.dict_set d (display_name csv)
                               (os_path_join csv_folder csv))
    csvs d <> [].
Proof.
  revert d; induction csvs as [|c csvs IH]; intros d Hd; simpl;
    [exact Hd|].
  apply IH, dict_set_nonempty.
Qed.

Lemma franchises_of_nonempty (csvs : list string) :
  csvs <> [] -> franchises_of csvs <> [].
Proof.
  destruct csvs as [|c csvs]; [congruence|]. intros _.
  unfold franchises_of. simpl. apply fold_dict_set_nonempty. discriminate.
Qed.

(** C4, as amended.  Without the directory the listing raises and there
    is no start; with the directory but no matching file the catalogue is
    empty and the layout raises when it takes the first path as the
    default; only with a matching file does the start complete, and then
    the selection list is not empty. *)
Theorem startup_needs_a_franchise (fs : filesystem) :
  (fs csv_folder = None ->
   franchises fs = Raise (FileNotFoundError csv_folder)
   /\ startup fs = Raise (FileNotFoundError csv_folder))
  /\ (forall entries,
         fs csv_folder = Some entries ->
         filter (fun file => Str.endswith file "_movies.csv") entries = [] ->
         franchises fs = Ok [] /\ startup fs = Raise IndexError)
  /\ (forall entries,
         fs csv_folder = Some entries ->
         filter (fun file => Str.endswith file "_movies.csv") entries <> [] ->
         exists d, startup fs = Ok d /\ options d <> []).
Proof.
  unfold startup, app_layout, franchises, franchise_csvs, os_listdir.
  split; [|split].
  - intros ->. split; reflexivity.
  - intros entries -> Hnone. simpl. rewrite Hnone. split; reflexivity.
  - intros entries -> Hsome. simpl.
    pose proof (franchises_of_nonempty _ Hsome) as Hne.
    destruct (franchises_of _) as [|[name path] rest]; [congruence|].
    simpl. eexists. split; [reflexivity|]. simpl. discriminate.
Qed.

End Catalogue.

(** C4, as stated, does not hold: without the directory the start
    raises. *)
Lemma startup_without_directory_raises :
  ~ (forall fs,
        (fs csv_folder = None
         \/ exists entries,
              fs csv_folder = Some entries
              /\ filter (fun file => Str.endswith file "_movies.csv")
                        entries = []) ->
        exists d, startup fs = Ok d /\ options d = []).
Proof.
  intros H. destruct (H no_directory) as [d [E _]]; [now left|].
  discriminate E.
Qed.

Example startup_without_matching_file :
  franchises no_matching_file = Ok []
  /\ startup no_matching_file = Raise IndexError.
Proof. split; reflexivity. Qed.

Example startup_with_two_franchises :
  startup two_franchises
  = Ok {| options := [("Star Wars", "csvs/star_wars_movies.csv");
                      ("Toy Story", "csvs/toy_story_movies.csv")]%string;
          value := "csvs/star_wars_movies.csv";
          placeholder := "Select a Movie Franchise" |}.
Proof. vm_compute. reflexivity. Qed.

Lemma startup_needs_a_franchise_witness :
  no_directory csv_folder = None
  /\ startup no_directory = Raise (FileNotFoundError csv_folder)
  /\ startup no_matching_file = Raise IndexError
  /\ exists d, startup two_franchises = Ok d /\ options d <> [].
Proof.
  split; [reflexivity|]. split; [|split].
  - exact (proj2 (proj1 (startup_needs_a_franchise no_directory) eq_refl)).
  - exact (proj2 (proj1 (proj2 (startup_needs_a_franchise no_matching_file))
                        _ eq_refl eq_refl)).
  - apply (proj2 (proj2 (startup_needs_a_franchise two_franchises))
                 _ eq_refl).
    discriminate.
Defined.

(* ------------------------------------------------------------------ *)
(** ** The chart *)

Section Chart.

Lemma column_tuple (r : row) :
  mapM (fun name => column name r) customdata_columns
  = Ok (attribute_tuple r).
Proof. reflexivity. Qed.

Lemma select_values_tuples (df : list row) :
  select_values customdata_columns df = Ok (map attribute_tuple df).
Proof.
  unfold select_values. induction df as [|r df IH]; [reflexivity|].
  cbn [mapM map]. rewrite column_tuple, IH. reflexivity.
Qed.

(** The four traces of a figure, in the order they are added. *)
Lemma build_figure_traces (df : list row) (fig : go.Figure) :
  build_figure df = Ok fig ->
  exists x_perf y_perf x_sent y_sent t0 t1 t2 t3,
    smooth_line (map release_date df) (map performance df) default_points
    = Ok (x_perf, y_perf)
    /\ smooth_line (map release_date df) (map sentiment_score df)
                   default_points
       = Ok (x_sent, y_sent)
    /\ go.data fig = [t0; t1; t2; t3]
    /\ (go.x t0 = x_perf /\ go.y t0 = y_perf
        /\ go.hoverinfo t0 = Some "skip"%string
        /\ go.mode t0 = "lines"%string
        /\ go.name t0 = "Performance"%string)
    /\ (go.x t1 = AsDatetime (map release_date df)
        /\ go.y t1 = FloatSeries (map performance df)
        /\ go.hoverinfo t1 = None
        /\ go.customdata t1 = Some (map attribute_tuple df)
        /\ go.mode t1 = "markers"%string
        /\ go.name t1 = "Performance"%string)
    /\ (go.x t2 = x_sent /\ go.y t2 = y_sent
        /\ go.hoverinfo t2 = Some "skip"%string
        /\ go.mode t2 = "lines"%string
        /\ go.name t2 = "Sentiment"%string)
    /\ (go.x t3 = AsDatetime (map release_date df)
        /\ go.y t3 = FloatSeries (map sentiment_score df)
        /\ go.hoverinfo t3 = None
        /\ go.customdata t3 = Some (map attribute_tuple df)
        /\ go.mode t3 = "markers"%string
        /\ go.name t3 = "Sentiment"%string).
Proof.
  unfold build_figure. cbv zeta.
  destruct (smooth_line _ (map performance df) _) as [[x_perf y_perf]|e];
    [|discriminate].
  destruct (smooth_line _ (map sentiment_score df) _)
    as [[x_sent y_sent]|e]; [|discriminate].
  cbn [bind]. rewrite select_values_tuples. cbn [bind].
  intros H. injection H as <-.
  exists x_perf, y_perf, x_sent, y_sent.
  do 4 eexists. cbn [go.data].
  split; [reflexivity|]. split; [reflexivity|]. split; [reflexivity|].
  repeat split.
Qed.




End Chart.

(* ------------------------------------------------------------------ *)
(** ** A table of valid rows *)

Section ValidRows.

Import Pandas.

Lemma strictly_increasing_sorted_nodup (l : list Z) :
  StronglySorted Z.le l -> NoDup l -> Scipy.strictly_increasing l = true.
Proof.
  induction 1 as [|a l Hs IH Ha]; intros Hnd; [reflexivity|].
  inversion Hnd as [|? ? Hnotin Hnd']; subst.
  destruct l as [|b l]; [reflexivity|].
  change (((a <? b) && Scipy.strictly_increasing (b :: l)) = true).
  rewrite (IH Hnd'), andb_true_r. apply Z.ltb_lt.
  inversion Ha as [|? ? Hab _]; subst.
  assert (a <> b) by (intros ->; apply Hnotin; now left). lia.
Qed.

Lemma valid_pairs_all (x : list Z) (y : list (option Q)) :
  length x = length y ->
  Forall (fun v => v <> None) y ->
  map fst (valid_pairs x y) = x
  /\ length (valid_pairs x y) = length x.
Proof.
  revert y; induction x as [|a x IH]; intros [|v y] Hlen Hy;
    simpl in Hlen; try discriminate; [split; reflexivity|].
  injection Hlen as Hlen. inversion Hy as [|? ? Hv Hy']; subst.
  destruct (IH y Hlen Hy') as [E1 E2]. unfold valid_pairs in *. simpl.
  destruct v as [q|]; [|congruence]. simpl. rewrite E1, E2. now split.
Qed.

Lemma smooth_line_all_valid (x : list Z) (y : list (option Q)) :
  length x = length y ->
  Forall (fun v => v <> None) y ->
  Scipy.strictly_increasing x = true ->
  (4 <= length x)%nat ->
  exists xs ys,
    smooth_line x y default_points = Ok (AsDatetime xs, ys)
    /\ length xs = 300%nat /\ y_length ys = 300%nat.
Proof.
  intros Hlen Hy Hinc H4.
  destruct (valid_pairs_all x y Hlen Hy) as [E1 E2].
  destruct (smooth_line_resampled x y default_points Hlen)
    as [lo [hi [xs [x_smooth [Hs [_ [_ [Hcount [Hsame _]]]]]]]]].
  - now rewrite E1.
  - now rewrite E2.
  - discriminate.
  - exists xs. eexists. split; [exact Hs|].
    unfold default_points in Hcount. simpl. split; lia.
Qed.

Variable csv : list Raw.row.
Hypothesis all_parse : Forall (fun r => parses r = true) csv.

Lemma load_all_dated :
  load csv
  = map finish_row (argsort_rows fst (map parse_release_date csv)).
Proof.
  rewrite load_split.
  rewrite (filter_all parses), (filter_none (fun r => negb (parses r))).
  - apply app_nil_r.
  - eapply Forall_impl; [|exact all_parse].
    intros r Hr. simpl. now rewrite Hr.
  - exact all_parse.
Qed.

Lemma load_dates_perm :
  Permutation
    (map (fun r => to_datetime (Raw.release_date r)) csv)
    (map release_date (load csv)).
Proof.
  rewrite <- (load_perm csv), map_map. apply Permutation_refl.
Qed.

Lemma load_dates_sorted : StronglySorted Z.le (map release_date (load csv)).
Proof.
  rewrite load_all_dated, map_map.
  erewrite map_ext; [|apply finish_row_date].
  apply StronglySorted_map, argsort_rows_sorted.
Qed.

Lemma load_Forall (P : row -> Prop) :
  Forall (fun r => P (loaded r)) csv -> Forall P (load csv).
Proof.
  intros H. eapply Permutation_Forall; [apply load_perm|].
  now apply Forall_map.
Qed.

(** The chart of a table of at least four rows, all with a date of their
    own and with both scores. *)
Lemma update_graph_valid_rows :
  (4 <= length csv)%nat ->
  NoDup (map (fun r => to_datetime (Raw.release_date r)) csv) ->
  Forall (fun r => Raw.performance r <> None) csv ->
  Forall (fun r => to_numeric_coerce (Raw.sentiment_score r) <> None) csv ->
  exists fig t0 t1 t2 t3,
    update_graph csv = Ok fig
    /\ go.data fig = [t0; t1; t2; t3]
    /\ (is_datetime (go.x t0) = true
        /\ x_length (go.x t0) = 300%nat /\ y_length (go.y t0) = 300%nat
        /\ go.mode t0 = "lines"%string
        /\ go.name t0 = "Performance"%string)
    /\ (x_length (go.x t1) = length csv
        /\ y_length (go.y t1) = length csv
        /\ go.mode t1 = "markers"%string
        /\ go.name t1 = "Performance"%string).
Proof.
  intros H4 Hnd Hperf Hsent.
  assert (Hlen : length (load csv) = length csv).
  { rewrite <- (Permutation_length (load_perm csv)). apply length_map. }
  assert (Hinc : Scipy.strictly_increasing (map release_date (load csv))
                 = true).
  { apply strictly_increasing_sorted_nodup; [apply load_dates_sorted|].
    eapply Permutation_NoDup; [apply load_dates_perm|exact Hnd]. }
  destruct (smooth_line_all_valid (map release_date (load csv))
              (map performance (load csv)))
    as [xp [yp [Hp [Hxp Hyp]]]];
    [now rewrite !length_map| |exact Hinc|rewrite length_map; lia|].
  { apply Forall_map, load_Forall. exact Hperf. }
  destruct (smooth_line_all_valid (map release_date (load csv))
              (map sentiment_score (load csv)))
    as [xs [ys [Hs [Hxs Hys]]]];
    [now rewrite !length_map| |exact Hinc|rewrite length_map; lia|].
  { apply Forall_map, load_Forall. exact Hsent. }
  destruct (update_graph csv) as [fig|e] eqn:Hfig.
  - destruct (build_figure_traces (load csv) fig Hfig)
      as [xp' [yp' [xs' [ys' [t0 [t1 [t2 [t3
           [Hp' [_ [Hdata [T0 [T1 _]]]]]]]]]]]]].
    rewrite Hp in Hp'. injection Hp' as <- <-.
    destruct T0 as [X0 [Y0 [_ [M0 N0]]]].
    destruct T1 as [X1 [Y1 [_ [_ [M1 N1]]]]].
    exists fig, t0, t1, t2, t3. split; [reflexivity|].
    split; [exact Hdata|]. split.
    + rewrite X0, Y0. unfold x_length. simpl. repeat split; assumption.
    + rewrite X1, Y1. unfold x_length. simpl. rewrite !length_map.
      repeat split; assumption.
  - exfalso. unfold update_graph, build_figure in Hfig. cbv zeta in Hfig.
    rewrite Hp, Hs in Hfig. cbn [bind] in Hfig.
    rewrite select_values_tuples in Hfig. discriminate Hfig.
Qed.

End ValidRows.

(** C7, as amended.  For a table of five rows, all with a date, no two on
    the same day, and all with both scores, the figure has exactly four
    traces, the first the smoothed performance line of exactly 300
    points, the second the performance markers of exactly 5 points. *)
Theorem five_rows_chart (csv : list Raw.row) :
  length csv = 5%nat ->
  Forall (fun r => parses r = true) csv ->
  NoDup (map (fun r => Pandas.to_datetime (Raw.release_date r)) csv) ->
  Forall (fun r => Raw.performance r <> None) csv ->
  Forall (fun r => to_numeric_coerce (Raw.sentiment_score r) <> None) csv ->
  exists fig t0 t1,
    update_graph csv = Ok fig
    /\ length (go.data fig) = 4%nat
    /\ nth_error (go.data fig) 0 = Some t0
    /\ nth_error (go.data fig) 1 = Some t1
    /\ (go.mode t0 = "lines"%string /\ go.name t0 = "Performance"%string
        /\ x_length (go.x t0) = 300%nat /\ y_length (go.y t0) = 300%nat)
    /\ (go.mode t1 = "markers"%string /\ go.name t1 = "Performance"%string
        /\ x_length (go.x t1) = 5%nat /\ y_length (go.y t1) = 5%nat).
Proof.
  intros Hlen Hparse Hnd Hperf Hsent.
  destruct (update_graph_valid_rows csv Hparse ltac:(lia) Hnd Hperf Hsent)
    as [fig [t0 [t1 [t2 [t3 [Hfig [Hdata [T0 T1]]]]]]]].
  destruct T0 as [_ [X0 [Y0 [M0 N0]]]]. destruct T1 as [X1 [Y1 [M1 N1]]].
  exists fig, t0, t1. rewrite Hdata. rewrite Hlen in X1, Y1.
  repeat split; assumption.
Qed.

(** C7, as stated, does not hold: of five rows with valid dates and
    scores, two released on the same day stop the spline fit, and there
    is no figure. *)
Lemma same_day_rows_no_chart :
  ~ (forall csv,
        length csv = 5%nat ->
        Forall (fun r => parses r = true) csv ->
        Forall (fun r => Raw.performance r <> None) csv ->
        Forall (fun r => to_numeric_coerce (Raw.sentiment_score r) <> None)
               csv ->
        exists fig t0 t1,
          update_graph csv = Ok fig
          /\ length (go.data fig) = 4%nat
          /\ nth_error (go.data fig) 0 = Some t0
          /\ nth_error (go.data fig) 1 = Some t1
          /\ x_length (go.x t0) = 300%nat
          /\ x_length (go.x t1) = 5%nat).
Proof.
  intros H.
  destruct (H same_day_movies eq_refl) as [fig [t0 [t1 [E _]]]].
  - repeat constructor.
  - repeat constructor; discriminate.
  - repeat constructor; discriminate.
  - vm_compute in E. discriminate E.
Qed.

Example same_day_rows_raise :
  update_graph same_day_movies
  = Raise (ValueError NotStrictlyIncreasing).
Proof. vm_compute. reflexivity. Qed.

Lemma five_movies_valid :
  Forall (fun r => parses r = true) five_movies
  /\ NoDup (map (fun r => Pandas.to_datetime (Raw.release_date r))
                five_movies)
  /\ Forall (fun r => Raw.performance r <> None) five_movies
  /\ Forall (fun r => to_numeric_coerce (Raw.sentiment_score r) <> None)
            five_movies.
Proof.
  split; [repeat constructor|]. split; [|split].
  - vm_compute.
    repeat (constructor;
            [intros H; repeat (destruct H as [H|H]; [discriminate H|]);
             exact H|]).
    constructor.
  - repeat constructor; discriminate.
  - repeat constructor; discriminate.
Defined.

Lemma five_rows_chart_witness :
  length five_movies = 5%nat
  /\ exists fig t0 t1,
       update_graph five_movies = Ok fig
       /\ length (go.data fig) = 4%nat
       /\ nth_error (go.data fig) 0 = Some t0
       /\ nth_error (go.data fig) 1 = Some t1
       /\ (go.mode t0 = "lines"%string
           /\ go.name t0 = "Performance"%string
           /\ x_length (go.x t0) = 300%nat
           /\ y_length (go.y t0) = 300%nat)
       /\ (go.mode t1 = "markers"%string
           /\ go.name t1 = "Performance"%string
           /\ x_length (go.x t1) = 5%nat
           /\ y_length (go.y t1) = 5%nat).
Proof.
  split; [reflexivity|].
  exact (five_rows_chart five_movies eq_refl
           (proj1 five_movies_valid)
           (proj1 (proj2 five_movies_valid))
           (proj1 (proj2 (proj2 five_movies_valid)))
           (proj2 (proj2 (proj2 five_movies_valid)))).
Defined.


(** A row without a date among dated rows with scores: its x is the
    sentinel, it comes last, and the fit refuses the abscissae. *)
Example undated_row_stops_the_chart :
  update_graph (five_movies ++ [undated_movie])
  = Raise (ValueError NotStrictlyIncreasing).
Proof. vm_compute. reflexivity. Qed.

(* ------------------------------------------------------------------ *)
(** ** More on the smoothing helper: outcomes *)

Section SmoothLineOutcomes.

Variables (x : list Z) (y : list (option Q)) (points : Z).
Hypothesis same_length : length x = length y.

Let n := length (valid_pairs x y).
Let vx := map fst (valid_pairs x y).
Let vy := map snd (valid_pairs x y).

Lemma fit_outcome :
  Scipy.make_interp_spline vx vy
  = if negb (Scipy.strictly_increasing vx)
    then Raise (ValueError NotStrictlyIncreasing)
    else if (n <? 4)%nat then Raise (ValueError TooFewDataPoints)
    else Ok {| Scipy.data_x := vx; Scipy.data_y := vy |}.
Proof.
  unfold Scipy.make_interp_spline, vy, vx, n.
  now rewrite valid_pairs_no_nan, length_map.
Qed.





(** How many points [smooth_line] returns. *)
Lemma smooth_line_count (xs : x_values) (ys : y_values) :
  smooth_line x y points = Ok (xs, ys) ->
  x_length xs = y_length ys
  /\ x_length xs = if (3 <=? n)%nat then Z.to_nat points else n.
Proof.
  rewrite (smooth_line_unfold x y points same_length). cbv zeta.
  rewrite length_map. fold n vx vy.
  destruct (3 <=? n)%nat.
  - destruct (Scipy.make_interp_spline vx vy) as [s|]; [|discriminate].
    simpl. destruct (Numpy.linspace _ _ points) as [l|] eqn:El;
      [|discriminate].
    simpl. intros H. injection H as <- <-.
    apply linspace_length in El. unfold x_length. simpl.
    unfold Pandas.to_datetime_float. rewrite length_map. split; lia.
  - intros H. injection H as <- <-. unfold x_length. simpl.
    unfold vx, vy, n. rewrite !length_map. now split.
Qed.

(** X3.  Whenever [smooth_line] returns, its x and its y have the same
    number of points: [points] of them from the spline branch, as many as
    there are valid pairs from the fallback. *)
Theorem smooth_line_point_count (xs : x_values) (ys : y_values) :
  smooth_line x y points = Ok (xs, ys) ->
  x_length xs = y_length ys
  /\ x_length xs = if (3 <=? n)%nat then Z.to_nat points else n.
Proof. exact (smooth_line_count xs ys). Qed.

End SmoothLineOutcomes.

Lemma valid_pairs_same_valid_x (x x' : list Z) (y : list (option Q)) :
  length x = length y -> length x' = length y ->
  (forall i v, nth_error y i = Some (Some v) ->
               nth_error x i = nth_error x' i) ->
  valid_pairs x y = valid_pairs x' y.
Proof.
  revert x' y; induction x as [|a x IH]; intros [|a' x'] [|v y] H1 H2 Hx;
    simpl in H1, H2; try discriminate; [reflexivity|].
  injection H1 as H1. injection H2 as H2. unfold valid_pairs in *. simpl.
  rewrite (IH x' y H1 H2) by (intros i w Hi; exact (Hx (S i) w Hi)).
  destruct v as [q|]; [|reflexivity]. simpl.
  specialize (Hx 0%nat q eq_refl). simpl in Hx. now injection Hx as ->.
Qed.

(** X4.  The x of a pair whose y is null plays no part: two x series that
    agree wherever y is not null give the same result. *)
Theorem smooth_line_ignores_x_of_null_y (x x' : list Z)
  (y : list (option Q)) (points : Z) :
  length x = length y -> length x' = length y ->
  (forall i v, nth_error y i = Some (Some v) ->
               nth_error x i = nth_error x' i) ->
  smooth_line x y points = smooth_line x' y points.
Proof.
  intros H1 H2 Hx.
  rewrite (smooth_line_unfold x y points H1).
  rewrite (smooth_line_unfold x' y points H2).
  now rewrite (valid_pairs_same_valid_x x x' y H1 H2 Hx).
Qed.

(* ------------------------------------------------------------------ *)
(** ** The resampled abscissae are in ascending order *)

Section SortedCurve.

Import Numpy Pandas.









End SortedCurve.

(* ------------------------------------------------------------------ *)
(** ** More on the catalogue: the dictionary *)

Section Dictionary.

Context {V : Type}.
Implicit Types (d : list (string * V)) (k : string) (v : V).

Lemma dict_get_set_same d k v : dict_get (Str.dict_set d k v) k = Some v.
Proof.
  induction d as [|[k' v'] d IH]; simpl.
  - now rewrite String.eqb_refl.
  - destruct (String.eqb k' k) eqn:E; simpl.
    + now rewrite String.eqb_refl.
    + now rewrite E.
Qed.

Lemma dict_get_set_other d k v k0 :
  k0 <> k -> dict_get (Str.dict_set d k v) k0 = dict_get d k0.
Proof.
  intros Hne. induction d as [|[k' v'] d IH]; simpl.
  - destruct (String.eqb_spec k k0); [congruence|reflexivity].
  - destruct (String.eqb_spec k' k) as [->|Hk]; simpl.
    + destruct (String.eqb_spec k k0); [congruence|reflexivity].
    + destruct (String.eqb k' k0); [reflexivity|exact IH].
Qed.

Lemma dict_set_fresh d k v :
  ~ In k (map fst d) -> Str.dict_set d k v = d ++ [(k, v)].
Proof.
  induction d as [|[k' v'] d IH]; simpl; intros Hk; [reflexivity|].
  destruct (String.eqb_spec k' k) as [->|_]; [tauto|].
  rewrite IH by tauto. reflexivity.
Qed.

Lemma dict_set_keys_known d k v :
  In k (map fst d) -> map fst (Str.dict_set d k v) = map fst d.
Proof.
  induction d as [|[k' v'] d IH]; simpl; intros Hk; [contradiction|].
  destruct (String.eqb_spec k' k) as [->|Hne]; [reflexivity|].
  simpl. rewrite IH; [reflexivity|]. destruct Hk; congruence.
Qed.

Lemma dict_set_in d k v k0 v0 :
  In (k0, v0) (Str.dict_set d k v) ->
  (k0 = k /\ v0 = v) \/ In (k0, v0) d.
Proof.
  induction d as [|[k' v'] d IH]; simpl.
  - intros [H|[]]. injection H as <- <-. now left.
  - destruct (String.eqb_spec k' k) as [->|Hne]; simpl.
    + intros [H|H]; [injection H as <- <-; now left|now right; right].
    + intros [H|H]; [now right; left|].
      destruct (IH H) as [?|?]; [now left|now right; right].
Qed.

Lemma dict_set_NoDup d k v :
  NoDup (map fst d) -> NoDup (map fst (Str.dict_set d k v)).
Proof.
  intros Hnd. destruct (in_dec string_dec k (map fst d)) as [Hin|Hout].
  - now rewrite dict_set_keys_known.
  - rewrite dict_set_fresh by exact Hout. rewrite map_app. simpl.
    apply NoDup_app; [exact Hnd|repeat constructor; simpl; tauto|].
    intros a Ha [<-|[]]. contradiction.
Qed.

Lemma dict_set_length d k v :
  (length (Str.dict_set d k v) <= S (length d))%nat.
Proof.
  induction d as [|[k' v'] d IH]; simpl; [lia|].
  destruct (String.eqb k' k); simpl; lia.
Qed.

End Dictionary.

(* ------------------------------------------------------------------ *)
(** ** More on the catalogue: its entries *)

Section CatalogueEntries.

(** The comprehension from a dictionary already begun. *)
Let build (d : list (string * string)) (csvs : list string) :=
  fold_left
    (fun d csv => Str.dict_set d (display_name csv)
                               (os_path_join csv_folder csv))
    csvs d.

Lemma build_NoDup (csvs : list string) (d : list (string * string)) :
  NoDup (map fst d) -> NoDup (map fst (build d csvs)).
Proof.
  revert d; induction csvs as [|c csvs IH]; intros d Hd; simpl;
    [exact Hd|].
  apply IH, dict_set_NoDup, Hd.
Qed.

Lemma build_length (csvs : list string) (d : list (string * string)) :
  (length (build d csvs) <= length d + length csvs)%nat.
Proof.
  unfold build.
  revert d; induction csvs as [|c csvs IH]; intros d; simpl; [lia|].
  specialize (IH (Str.dict_set d (display_name c)
                               (os_path_join csv_folder c))).
  pose proof (dict_set_length d (display_name c)
                              (os_path_join csv_folder c)).
  lia.
Qed.

Lemma build_in (csvs : list string) (d : list (string * string))
  (name path : string) :
  In (name, path) (build d csvs) ->
  In (name, path) d
  \/ exists csv, In csv csvs /\ (name, path) = catalogue_entry csv.
Proof.
  revert d; induction csvs as [|c csvs IH]; intros d; simpl;
    [now left|].
  intros H. destruct (IH _ H) as [Hd|[csv [Hin E]]].
  - destruct (dict_set_in _ _ _ _ _ Hd) as [[-> ->]|Hd'];
      [right; exists c; split; [now left|reflexivity]|now left].
  - right. exists csv. split; [now right|exact E].
Qed.

Lemma build_get_last (l1 l2 : list string) (c : string)
  (d : list (string * string)) :
  (forall c', In c' l2 -> display_name c' <> display_name c) ->
  dict_get (build d (l1 ++ c :: l2)) (display_name c)
  = Some (os_path_join csv_folder c).
Proof.
  intros Hlater. unfold build. rewrite fold_left_app. simpl.
  set (d1 := Str.dict_set _ (display_name c) _).
  assert (H1 : dict_get d1 (display_name c)
               = Some (os_path_join csv_folder c))
    by apply dict_get_set_same.
  clearbody d1. revert d1 H1.
  induction l2 as [|c' l2 IH]; intros d1 H1; simpl; [exact H1|].
  apply IH; [intros c'' Hc''; apply Hlater; now right|].
  rewrite dict_get_set_other; [exact H1|].
  intros E. apply (Hlater c'); [now left|now symmetry].
Qed.

Lemma build_distinct (csvs : list string) (d : list (string * string)) :
  NoDup (map display_name csvs) ->
  (forall c, In c csvs -> ~ In (display_name c) (map fst d)) ->
  build d csvs = d ++ map catalogue_entry csvs.
Proof.
  revert d; induction csvs as [|c csvs IH]; intros d Hnd Hfresh; simpl.
  - now rewrite app_nil_r.
  - inversion Hnd as [|? ? Hc Hnd']; subst.
    rewrite dict_set_fresh by (apply Hfresh; now left).
    rewrite IH; [now rewrite <- app_assoc|exact Hnd'|].
    intros c' Hc' Hin. rewrite map_app in Hin.
    apply in_app_or in Hin. destruct Hin as [Hin|[E|[]]].
    + apply (Hfresh c'); [now right|exact Hin].
    + simpl in E. apply Hc. rewrite E. now apply in_map.
Qed.

Variables (fs : filesystem) (entries : list string).
Hypothesis listing : fs csv_folder = Some entries.

Lemma franchises_listing :
  franchises fs = Ok (franchises_of (matching entries)).
Proof.
  unfold franchises, franchise_csvs, os_listdir. now rewrite listing.
Qed.

(** X6.  The catalogue has each display name once, and no more entries
    than the directory has matching files. *)
Theorem franchises_names_unique (d : list (string * string)) :
  franchises fs = Ok d ->
  NoDup (map fst d) /\ (length d <= length (matching entries))%nat.
Proof.
  rewrite franchises_listing. intros H. injection H as <-. split.
  - apply (build_NoDup (matching entries) []). constructor.
  - apply (build_length (matching entries) []).
Qed.

(** X7.  Every entry of the catalogue comes from a file of the directory
    whose name ends in "_movies.csv": its key is the display name of that
    file and its path is the file inside the folder. *)
Theorem franchises_entries_from_files (d : list (string * string))
  (name path : string) :
  franchises fs = Ok d ->
  In (name, path) d ->
  exists file,
    In file entries
    /\ Str.endswith file "_movies.csv" = true
    /\ name = display_name file
    /\ path = (csv_folder ++ "/" ++ file)%string.
Proof.
  rewrite franchises_listing. intros H Hin. injection H as <-.
  destruct (build_in (matching entries) [] name path Hin)
    as [[]|[file [Hfile E]]].
  apply filter_In in Hfile. destruct Hfile as [Hfile Hend].
  injection E as -> ->. exists file. repeat split; assumption.
Qed.

(** X8.  When several matching files have the same display name, the
    catalogue keeps the path of the last of them in the order of the
    listing. *)
Theorem franchises_last_file_wins (d : list (string * string))
  (l1 l2 : list string) (file : string) :
  franchises fs = Ok d ->
  matching entries = l1 ++ file :: l2 ->
  (forall later, In later l2 ->
                 display_name later <> display_name file) ->
  dict_get d (display_name file) = Some (csv_folder ++ "/" ++ file)%string.
Proof.
  rewrite franchises_listing. intros H Hsplit Hlater. injection H as <-.
  unfold franchises_of. rewrite Hsplit.
  exact (build_get_last l1 l2 file [] Hlater).
Qed.

(** X9.  When the matching files have display names of their own, the
    selection list has one option for each of them, in the order of the
    listing, with the title-cased display name as label and the path as
    value, and the default selection is the first of them. *)
Theorem startup_options_in_listing_order (first : string)
  (others : list string) :
  matching entries = first :: others ->
  NoDup (map display_name (matching entries)) ->
  exists d,
    startup fs = Ok d
    /\ options d
       = map (fun file => (Str.title (display_name file),
                           (csv_folder ++ "/" ++ file)%string))
             (matching entries)
    /\ value d = (csv_folder ++ "/" ++ first)%string.
Proof.
  intros Hfirst Hnd. unfold startup, app_layout.
  rewrite franchises_listing. cbn [bind].
  assert (E : franchises_of (matching entries)
              = map catalogue_entry (matching entries)).
  { apply (build_distinct (matching entries) [] Hnd). intros; tauto. }
  rewrite E, !map_map.
  assert (G : getitem (map (fun file => snd (catalogue_entry file))
                           (matching entries)) 0
              = Ok (csv_folder ++ "/" ++ first)%string)
    by (rewrite Hfirst; reflexivity).
  rewrite G. cbn [bind]. eexists. split; [reflexivity|].
  split; reflexivity.
Qed.

End CatalogueEntries.

(* ------------------------------------------------------------------ *)
(** ** More on the catalogue: display names *)

Section DisplayNames.

Lemma startswith_empty (s : string) : Str.startswith s "" = true.
Proof. now destruct s. Qed.

Lemma replace_underscores (s : string) :
  Str.replace s "_" " " = spaces_for_underscores s.
Proof.
  unfold Str.replace. induction s as [|c s IH]; [reflexivity|].
  cbn [Str.replace_aux Str.startswith String.length Nat.sub
       spaces_for_underscores].
  rewrite startswith_empty, andb_true_r.
  destruct (Ascii.eqb c "_"); cbn [append];
    now rewrite IH.
Qed.

Lemma spaces_for_underscores_clean (s : string) :
  contains_char (spaces_for_underscores s) "_" = false.
Proof.
  induction s as [|c s IH]; [reflexivity|]. simpl.
  rewrite IH, orb_false_r. destruct (Ascii.eqb c "_") eqn:E;
    [reflexivity|exact E].
Qed.

(** X10.  A display name never has an underscore in it. *)
Theorem display_name_no_underscore (csv : string) :
  contains_char (display_name csv) "_" = false.
Proof.
  unfold display_name. rewrite replace_underscores.
  apply spaces_for_underscores_clean.
Qed.

Lemma endswith_app (p s : string) : Str.endswith (p ++ s) s = true.
Proof.
  unfold Str.endswith.
  assert (E : (String.length (p ++ s) - String.length s)%nat
              = String.length p).
  { assert (L : String.length (p ++ s)
                 = (String.length p + String.length s)%nat)
      by (induction p as [|c p IH]; simpl; [reflexivity|now rewrite IH]).
    lia. }
  rewrite E. clear E. induction p as [|c p IH]; simpl; [|exact IH].
  destruct s; apply String.eqb_refl.
Qed.

(** No occurrence of "_movies.csv" begins in a stretch without a dot
    that is followed by "_movies.csv". *)
Lemma no_early_suffix (s : string) (c : ascii) :
  contains_char (String c s) "." = false ->
  Str.startswith (String c s ++ "_movies.csv") "_movies.csv" = false.
Proof.
  intros H.
  destruct s as [|c1 [|c2 [|c3 [|c4 [|c5 [|c6 [|c7 s]]]]]]];
    cbn [Str.startswith append];
    try (repeat match goal with
                | |- context [Ascii.eqb ?a ?b] =>
                    is_var a; destruct (Ascii.eqb a b); cbn [andb]
                end; reflexivity).
  cbn [contains_char] in H. rewrite !orb_false_iff in H.
  destruct H as [_ [_ [_ [_ [_ [_ [_ [H _]]]]]]]]. rewrite H.
  now rewrite !andb_false_r.
Qed.

Lemma replace_suffix (base : string) :
  contains_char base "." = false ->
  Str.replace (base ++ "_movies.csv") "_movies.csv" "" = base.
Proof.
  unfold Str.replace. induction base as [|c base IH]; intros H;
    [reflexivity|].
  pose proof (no_early_suffix base c H) as Hno.
  cbn [append] in *. cbn [Str.replace_aux]. rewrite Hno.
  rewrite IH; [reflexivity|].
  cbn [contains_char] in H. now apply orb_false_iff in H.
Qed.

(** X11.  A file whose name is a base without a dot followed by
    "_movies.csv" is taken into the catalogue, and its display name is the
    base with a space for each underscore. *)
Theorem display_name_of_franchise_file (base : string) :
  contains_char base "." = false ->
  Str.endswith (base ++ "_movies.csv") "_movies.csv" = true
  /\ display_name (base ++ "_movies.csv") = spaces_for_underscores base.
Proof.
  intros H. split; [apply endswith_app|].
  unfold display_name. rewrite (replace_suffix base H).
  apply replace_underscores.
Qed.

End DisplayNames.

Lemma display_name_of_franchise_file_witness :
  contains_char "star_wars" "." = false
  /\ Str.endswith "star_wars_movies.csv" "_movies.csv" = true
  /\ display_name "star_wars_movies.csv" = "star wars"%string.
Proof.
  split; [reflexivity|].
  exact (display_name_of_franchise_file "star_wars" eq_refl).
Defined.

(* ------------------------------------------------------------------ *)
(** ** More on the detail panel *)

Section HoverOutcomes.

(** X12.  [display_hover_data] with a hover event raises IndexError when
    the event has no point, KeyError when its first point carries no
    customdata, IndexError when that tuple has fewer than fourteen cells,
    and returns a panel in every other case. *)
Theorem display_hover_data_outcome (p : point) (rest : list point) :
  display_hover_data (Some []) = Raise IndexError
  /\ (point_customdata p = None ->
      display_hover_data (Some (p :: rest))
      = Raise (KeyError "customdata"))
  /\ (forall tuple,
         point_customdata p = Some tuple ->
         ((length tuple < 14)%nat ->
          display_hover_data (Some (p :: rest)) = Raise IndexError)
         /\ ((14 <= length tuple)%nat ->
             is_ok (display_hover_data (Some (p :: rest))) = true)).
Proof.
  split; [reflexivity|]. split.
  - intros H. unfold display_hover_data, get_customdata.
    cbn [getitem nth_error bind]. now rewrite H.
  - intros t H. unfold display_hover_data, get_customdata.
    cbn [getitem nth_error bind]. rewrite H. cbn [bind].
    destruct t as [|c0 [|c1 [|c2 [|c3 [|c4 [|c5 [|c6 [|c7 [|c8 [|c9
      [|c10 [|c11 [|c12 [|c13 t]]]]]]]]]]]]]];
      (split; intros Hlen; simpl in Hlen; [try lia|try lia]);
      reflexivity.
Qed.

(** X13.  The panel is made from the first point of the event alone, and
    of its tuple from the cells 0 to 7 and 9 to 13: the backdrop URL in
    cell 8, any cell after the fourteenth and any further point change
    nothing. *)
Theorem display_hover_data_reads (p p' : point) (rest rest' : list point)
  (tuple tuple' : list cell) :
  point_customdata p = Some tuple ->
  point_customdata p' = Some tuple' ->
  (14 <= length tuple)%nat ->
  (forall i, (i < 14)%nat -> i <> 8%nat ->
             nth_error tuple i = nth_error tuple' i) ->
  display_hover_data (Some (p :: rest))
  = display_hover_data (Some (p' :: rest')).
Proof.
  intros H H' Hlen Hsame. unfold display_hover_data, get_customdata.
  cbn [getitem nth_error bind]. rewrite H, H'. cbn [bind].
  destruct tuple as [|c0 [|c1 [|c2 [|c3 [|c4 [|c5 [|c6 [|c7 [|c8 [|c9
    [|c10 [|c11 [|c12 [|c13 t]]]]]]]]]]]]]]; simpl in Hlen; try lia.
  pose proof (Hsame 0%nat ltac:(lia) ltac:(lia)) as E0.
  pose proof (Hsame 1%nat ltac:(lia) ltac:(lia)) as E1.
  pose proof (Hsame 2%nat ltac:(lia) ltac:(lia)) as E2.
  pose proof (Hsame 3%nat ltac:(lia) ltac:(lia)) as E3.
  pose proof (Hsame 4%nat ltac:(lia) ltac:(lia)) as E4.
  pose proof (Hsame 5%nat ltac:(lia) ltac:(lia)) as E5.
  pose proof (Hsame 6%nat ltac:(lia) ltac:(lia)) as E6.
  pose proof (Hsame 7%nat ltac:(lia) ltac:(lia)) as E7.
  pose proof (Hsame 9%nat ltac:(lia) ltac:(lia)) as E9.
  pose proof (Hsame 10%nat ltac:(lia) ltac:(lia)) as E10.
  pose proof (Hsame 11%nat ltac:(lia) ltac:(lia)) as E11.
  pose proof (Hsame 12%nat ltac:(lia) ltac:(lia)) as E12.
  pose proof (Hsame 13%nat ltac:(lia) ltac:(lia)) as E13.
  destruct tuple' as [|d0 [|d1 [|d2 [|d3 [|d4 [|d5 [|d6 [|d7 [|d8 [|d9
    [|d10 [|d11 [|d12 [|d13 t']]]]]]]]]]]]]]; try discriminate.
  simpl in E0, E1, E2, E3, E4, E5, E6, E7, E9, E10, E11, E12, E13.
  injection E0 as <-. injection E1 as <-. injection E2 as <-.
  injection E3 as <-. injection E4 as <-. injection E5 as <-.
  injection E6 as <-. injection E7 as <-. injection E9 as <-.
  injection E10 as <-. injection E11 as <-. injection E12 as <-.
  injection E13 as <-. reflexivity.
Qed.

End HoverOutcomes.

Section HoverOverFigure.

Variables (csv : list Raw.row) (fig : go.Figure).
Hypothesis drawn : update_graph csv = Ok fig.

Lemma load_length : length (load csv) = length csv.
Proof.
  rewrite <- (Permutation_length (load_perm csv)). apply length_map.
Qed.



End HoverOverFigure.

(* ------------------------------------------------------------------ *)
(** ** More on the chart *)

Section ChartOutcomes.

Import Pandas.

Lemma valid_pairs_map {A} (f : A -> Z) (g : A -> option Q) (l : list A) :
  valid_pairs (map f l) (map g l)
  = map (fun a => (f a, g a)) (filter (fun a => notnull (g a)) l).
Proof.
  unfold valid_pairs. induction l as [|a l IH]; [reflexivity|].
  cbn [map combine filter snd].
  destruct (g a) eqn:E; cbn [notnull map]; rewrite ?E, IH; reflexivity.
Qed.

Lemma valid_x_scored (score : row -> option Q) (df : list row) :
  map fst (valid_pairs (map release_date df) (map score df))
  = map release_date (scored score df).
Proof. rewrite valid_pairs_map, map_map. reflexivity. Qed.

Lemma valid_y_scored (score : row -> option Q) (df : list row) :
  map snd (valid_pairs (map release_date df) (map score df))
  = map score (scored score df).
Proof. rewrite valid_pairs_map, map_map. reflexivity. Qed.

Lemma valid_count_scored (score : row -> option Q) (df : list row) :
  length (valid_pairs (map release_date df) (map score df))
  = length (scored score df).
Proof. rewrite valid_pairs_map. apply length_map. Qed.

Lemma column_lengths (score : row -> option Q) (df : list row) :
  length (map release_date df) = length (map score df).
Proof. now rewrite !length_map. Qed.





Variable csv : list Raw.row.





(** X18.  For a file of fewer than three rows [update_graph] always
    returns, and its two lines are not smoothed: each is the rows that
    have the score, with the date as the int64 of the frame and not as a
    timestamp. *)
Theorem update_graph_small_table :
  (length csv < 3)%nat ->
  exists fig line_p markers_p line_s markers_s,
    update_graph csv = Ok fig
    /\ go.data fig = [line_p; markers_p; line_s; markers_s]
    /\ go.x line_p
       = AsInt64 (map release_date (scored performance (load csv)))
    /\ go.y line_p
       = FloatSeries (map performance (scored performance (load csv)))
    /\ go.x line_s
       = AsInt64 (map release_date (scored sentiment_score (load csv)))
    /\ go.y line_s
       = FloatSeries (map sentiment_score
                          (scored sentiment_score (load csv))).
Proof.
  intros Hlen. rewrite <- load_length in Hlen.
  assert (Hfall : forall score,
            smooth_line (map release_date (load csv))
                        (map score (load csv)) default_points
            = Ok (AsInt64 (map release_date (scored score (load csv))),
                  FloatSeries (map score (scored score (load csv))))).
  { intros score.
    rewrite (smooth_line_unfold _ _ _ (column_lengths score (load csv))).
    cbv zeta. rewrite length_map, valid_count_scored.
    rewrite valid_x_scored, valid_y_scored.
    pose proof (filter_length_le (fun r => notnull (score r)) (load csv)).
    unfold scored.
    destruct (Nat.leb_spec 3 (length (filter (fun r => notnull (score r))
                                             (load csv))));
      [lia|reflexivity]. }
  unfold update_graph, build_figure. cbv zeta.
  rewrite (Hfall performance), (Hfall sentiment_score).
  cbn [bind]. rewrite select_values_tuples. cbn [bind].
  do 5 eexists. split; [reflexivity|]. cbn [go.data].
  split; [reflexivity|]. repeat split.
Qed.

End ChartOutcomes.

(* ------------------------------------------------------------------ *)
(** ** More on the loader: the formatted date *)

Section FormattedDate.

Import Calendar Chars Pandas.

Lemma find_month_range (abc : string) (names : list string) (k m : Z) :
  find_month abc names k = Some m ->
  k <= m < k + Z.of_nat (length names).
Proof.
  revert k; induction names as [|n names IH]; intros k; simpl;
    [discriminate|].
  destruct (String.eqb _ abc).
  - intros H. injection H as <-. lia.
  - intros H. apply IH in H. lia.
Qed.

Lemma parse_month_range (s r : string) (m : Z) :
  parse_month s = Some (m, r) -> 1 <= m <= 12.
Proof.
  unfold parse_month. destruct s as [|a [|b [|c s]]]; try discriminate.
  destruct (find_month _ month_abbr 1) as [m'|] eqn:E; [|discriminate].
  intros H. injection H as <- _. apply find_month_range in E.
  simpl in E. lia.
Qed.

Lemma is_digit_range (c : ascii) :
  is_digit c = true -> 0 <= digit_value c <= 9.
Proof. intros H. now apply is_digit_char in H. Qed.

Lemma parse_day_range (s r : string) (d : Z) :
  parse_day s = Some (d, r) -> 1 <= d <= 31.
Proof.
  unfold parse_day. destruct s as [|a s]; [discriminate|].
  assert (Hone : (if is_digit a && (1 <=? digit_value a)
                  then Some (digit_value a, s) else None) = Some (d, r) ->
                 1 <= d <= 31).
  { destruct (is_digit a) eqn:Ea; [|discriminate].
    destruct (Z.leb_spec 1 (digit_value a)) as [Hge|Hlt]; [|discriminate].
    intros Hsome. injection Hsome as <- _.
    apply is_digit_range in Ea. lia. }
  destruct s as [|b s]; [exact Hone|].
  destruct (is_digit a && is_digit b
            && (1 <=? 10 * digit_value a + digit_value b)
            && (10 * digit_value a + digit_value b <=? 31)) eqn:E;
    [|exact Hone].
  intros H. injection H as <- _.
  rewrite !andb_true_iff in E. destruct E as [[_ E1] E2].
  apply Z.leb_le in E1, E2. exact (conj E1 E2).
Qed.

Lemma parse_year_range (s r : string) (y : Z) :
  parse_year s = Some (y, r) -> 0 <= y <= 9999.
Proof.
  unfold parse_year.
  destruct s as [|a [|b [|c [|d s]]]]; try discriminate.
  destruct (is_digit a) eqn:Ea; [|discriminate].
  destruct (is_digit b) eqn:Eb; [|discriminate].
  destruct (is_digit c) eqn:Ec; [|discriminate].
  destruct (is_digit d) eqn:Ed; [|discriminate].
  cbn [andb]. intros H.
  assert (E : 1000 * digit_value a + 100 * digit_value b
              + 10 * digit_value c + digit_value d = y) by congruence.
  apply is_digit_range in Ea, Eb, Ec, Ed. lia.
Qed.

Lemma strptime_fields (s : string) (y m d : Z) :
  strptime s = Some (y, m, d) ->
  1 <= m <= 12 /\ 1 <= d <= 31 /\ 0 <= y <= 9999.
Proof.
  unfold strptime, obind.
  destruct (parse_month s) as [[m' s1]|] eqn:Em; [|discriminate].
  destruct (parse_spaces s1) as [s2|]; [|discriminate].
  destruct (parse_day s2) as [[d' s3]|] eqn:Ed; [|discriminate].
  destruct (parse_comma s3) as [s4|]; [|discriminate].
  destruct (parse_spaces s4) as [s5|]; [|discriminate].
  destruct (parse_year s5) as [[y' s6]|] eqn:Ey; [|discriminate].
  destruct s6; [|discriminate]. intros H. injection H as <- <- <-.
  apply parse_month_range in Em. apply parse_day_range in Ed.
  apply parse_year_range in Ey. tauto.
Qed.

Lemma well_formed_parts (name : string) (d y : Z) :
  In name month_abbr -> 0 <= d <= 99 -> 0 <= y <= 9999 ->
  well_formed (name ++ " " ++ two_digits d ++ ", " ++ four_digits y)
  = true.
Proof.
  intros Hname Hd Hy.
  destruct (digit_char_is_digit (d / 10)) as [D1 _];
    [Z.div_mod_to_equations; lia|].
  destruct (digit_char_is_digit (d mod 10)) as [D2 _];
    [Z.div_mod_to_equations; lia|].
  destruct (digit_char_is_digit (y / 1000)) as [Y1 _];
    [Z.div_mod_to_equations; lia|].
  destruct (digit_char_is_digit (y / 100 mod 10)) as [Y2 _];
    [Z.div_mod_to_equations; lia|].
  destruct (digit_char_is_digit (y mod 100 / 10)) as [Y3 _];
    [Z.div_mod_to_equations; lia|].
  destruct (digit_char_is_digit (y mod 100 mod 10)) as [Y4 _];
    [Z.div_mod_to_equations; lia|].
  unfold four_digits, two_digits. cbn [In month_abbr] in Hname.
  repeat (destruct Hname as [<-|Hname];
          [cbn [append well_formed];
           rewrite D1, D2, Y1, Y2, Y3, Y4; reflexivity|]).
  contradiction.
Qed.

Lemma well_formed_of_canonical (m d y : Z) :
  1 <= m <= 12 -> 0 <= d <= 99 -> 0 <= y <= 9999 ->
  well_formed (canonical m d y) = true.
Proof.
  intros Hm Hd Hy. unfold canonical. apply well_formed_parts; try assumption.
  apply nth_In. simpl length. lia.
Qed.

(** A date that parsed is the timestamp of a day of the calendar. *)
Lemma to_datetime_parsed (v : option string) :
  to_datetime v <> NaT ->
  exists y m d,
    1 <= m <= 12 /\ 1 <= d <= days_in_month y m /\ 0 <= y <= 9999
    /\ NaT < days_from_civil y m d * ns_per_day <= int64_max
    /\ to_datetime v = days_from_civil y m d * ns_per_day.
Proof.
  unfold to_datetime. destruct v as [s|]; [|congruence].
  destruct (strptime s) as [[[y m] d]|] eqn:Es; [|congruence].
  destruct (strptime_fields s y m d Es) as [Hm [Hd Hy]].
  destruct (Z.leb_spec d (days_in_month y m)) as [Hdim|]; [|congruence].
  destruct (Z.ltb_spec NaT (days_from_civil y m d * ns_per_day));
    [|simpl; congruence].
  destruct (Z.leb_spec (days_from_civil y m d * ns_per_day) int64_max);
    simpl; [|congruence].
  intros _. exists y, m, d. repeat split; lia.
Qed.

Lemma to_datetime_canonical (y m d : Z) :
  1 <= m <= 12 -> 1 <= d <= days_in_month y m -> 0 <= y <= 9999 ->
  NaT < days_from_civil y m d * ns_per_day <= int64_max ->
  to_datetime (Some (canonical m d y))
  = days_from_civil y m d * ns_per_day.
Proof.
  intros Hm Hd Hy Hns. pose proof (days_in_month_le_31 y m) as H31.
  unfold to_datetime. rewrite (strptime_canonical m d y) by lia.
  destruct (Z.leb_spec 1 d); [|lia]. destruct (Z.leb_spec d 31); [|lia].
  cbn [andb]. destruct (Z.leb_spec d (days_in_month y m)); [|lia].
  destruct (Z.ltb_spec NaT (days_from_civil y m d * ns_per_day)); [|lia].
  destruct (Z.leb_spec (days_from_civil y m d * ns_per_day) int64_max);
    [reflexivity|lia].
Qed.

(** X19.  The formatted date of a row whose date parsed has the shape
    "Mon DD, YYYY" and parses back to the very timestamp of the row,
    however the date was written in the file; a row whose date did not
    parse has no formatted date. *)
Theorem formatted_date_parses_back (r : Raw.row) :
  (parses r = true ->
   exists s,
     formatted_release_date (loaded r) = Some s
     /\ well_formed s = true
     /\ to_datetime (Some s) = release_date (loaded r))
  /\ (parses r = false -> formatted_release_date (loaded r) = None).
Proof.
  unfold parses, loaded, parse_release_date, finish_row.
  cbn [formatted_release_date release_date]. split.
  - intros Hp. apply negb_true_iff, Z.eqb_neq in Hp.
    destruct (to_datetime_parsed _ Hp)
      as [y [m [d [Hm [Hd [Hy [Hns ->]]]]]]].
    pose proof (days_in_month_le_31 y m) as H31.
    exists (canonical m d y). split; [|split].
    + now apply strftime_canonical.
    + apply well_formed_of_canonical; lia.
    + now apply to_datetime_canonical.
  - intros Hp. apply negb_false_iff, Z.eqb_eq in Hp. rewrite Hp.
    reflexivity.
Qed.

End FormattedDate.

(* ------------------------------------------------------------------ *)
(** ** More on the chart: a row without a date *)

Section UndatedRow.

Import Pandas.

Lemma to_datetime_after_NaT (v : option string) :
  to_datetime v <> NaT -> NaT < to_datetime v.
Proof.
  unfold to_datetime. destruct v as [s|]; [|congruence].
  destruct (strptime s) as [[[y m] d]|]; [|congruence].
  destruct (d <=? Calendar.days_in_month y m); [|congruence].
  destruct (Z.ltb_spec NaT (Calendar.days_from_civil y m d
                            * Calendar.ns_per_day)); [|simpl; congruence].
  destruct (_ <=? int64_max); simpl; [lia|congruence].
Qed.

Lemma strictly_increasing_sorted (l : list Z) :
  Scipy.strictly_increasing l = true -> StronglySorted Z.lt l.
Proof.
  induction l as [|a l IH]; [constructor|].
  destruct l as [|b l]; [repeat constructor|].
  change (((a <? b) && Scipy.strictly_increasing (b :: l)) = true
          -> StronglySorted Z.lt (a :: b :: l)).
  intros H. apply andb_true_iff in H. destruct H as [Hab Hl].
  apply Z.ltb_lt in Hab. specialize (IH Hl). constructor; [exact IH|].
  constructor; [exact Hab|].
  inversion IH as [|? ? _ Hb]; subst.
  eapply Forall_impl; [|exact Hb]. simpl. intros; lia.
Qed.

Lemma sorted_app_bounds (l1 l2 : list Z) :
  StronglySorted Z.lt (l1 ++ l2) ->
  forall a b, In a l1 -> In b l2 -> a < b.
Proof.
  induction l1 as [|c l1 IH]; simpl; [contradiction|].
  intros Hs a b Ha Hb. inversion Hs as [|? ? Hs' Hc]; subst.
  destruct Ha as [<-|Ha]; [|now apply (IH Hs')].
  rewrite Forall_forall in Hc. apply Hc, in_or_app. now right.
Qed.

Lemma null_dates_not_increasing (l1 l2 : list Z) :
  Forall (fun a => NaT < a) l1 ->
  Forall (fun a => a = NaT) l2 ->
  l2 <> [] ->
  (2 <= length (l1 ++ l2))%nat ->
  Scipy.strictly_increasing (l1 ++ l2) = false.
Proof.
  intros H1 H2 Hne Hlen.
  destruct (Scipy.strictly_increasing (l1 ++ l2)) eqn:E; [|reflexivity].
  exfalso. apply strictly_increasing_sorted in E.
  destruct l2 as [|b l2]; [congruence|].
  inversion H2 as [|? ? Hb H2']; subst.
  destruct l1 as [|a l1].
  - simpl in *. destruct l2 as [|b' l2]; [simpl in Hlen; lia|].
    inversion H2' as [|? ? Hb' _]; subst.
    inversion E as [|? ? _ Hall]; subst.
    inversion Hall; subst. lia.
  - inversion H1 as [|? ? Ha _]; subst.
    pose proof (sorted_app_bounds (a :: l1) (NaT :: l2) E a NaT
                  (or_introl eq_refl) (or_introl eq_refl)).
    lia.
Qed.

Lemma Permutation_filter {A} (f : A -> bool) (l l' : list A) :
  Permutation l l' -> Permutation (filter f l) (filter f l').
Proof.
  induction 1 as [|a l l' _ IH|a b l|l l' l'' _ IH1 _ IH2]; simpl.
  - constructor.
  - destruct (f a); [now constructor|exact IH].
  - destruct (f a), (f b); try reflexivity. apply perm_swap.
  - now transitivity (filter f l').
Qed.

Variable csv : list Raw.row.

Lemma scored_performance_count :
  length (scored performance (load csv))
  = length (filter (fun r => notnull (Raw.performance r)) csv).
Proof.
  unfold scored.
  rewrite <- (Permutation_length
                (Permutation_filter _ _ _ (load_perm csv))).
  rewrite filter_map_swap, length_map. reflexivity.
Qed.

(** X20.  One row whose date does not parse, if it has a performance,
    stops the whole chart as soon as three rows have a performance: its
    date is the null sentinel, it is sorted last, and the spline fit
    refuses the dates. *)
Theorem undated_row_stops_chart (r : Raw.row) :
  In r csv ->
  parses r = false ->
  Raw.performance r <> None ->
  (3 <= length (filter (fun r => notnull (Raw.performance r)) csv))%nat ->
  update_graph csv = Raise (ValueError NotStrictlyIncreasing).
Proof.
  intros Hin Hp Hperf Hcount. rewrite <- scored_performance_count in Hcount.
  assert (Hinc : Scipy.strictly_increasing
                   (map release_date (scored performance (load csv)))
                 = false).
  { revert Hcount. unfold scored. rewrite load_split, filter_app, map_app.
    intros Hcount. apply null_dates_not_increasing.
    - apply Forall_map, Forall_forall. intros r' Hr'.
      apply filter_In in Hr'. destruct Hr' as [Hr' _].
      pose proof (dated_part_has_date csv) as Hd.
      rewrite Forall_forall in Hd. specialize (Hd r' Hr').
      assert (Hin' : In r' (load csv))
        by (rewrite load_split; apply in_or_app; now left).
      rewrite <- (load_perm csv) in Hin'. apply in_map_iff in Hin'.
      destruct Hin' as [raw [<- _]]. unfold loaded in *.
      rewrite finish_row_date in *. simpl in *.
      now apply to_datetime_after_NaT.
    - apply Forall_map, Forall_forall. intros r' Hr'.
      apply filter_In in Hr'. destruct Hr' as [Hr' _].
      pose proof (undated_part_no_date csv) as Hu.
      rewrite Forall_forall in Hu. now apply Hu.
    - intros E. apply map_eq_nil in E.
      assert (Hr : In (loaded r)
                      (filter (fun r0 => notnull (performance r0))
                         (map loaded
                            (filter (fun r0 => negb (parses r0)) csv)))).
      { apply filter_In. split.
        - apply in_map, filter_In. split; [exact Hin|now rewrite Hp].
        - simpl. destruct (Raw.performance r); [reflexivity|congruence]. }
      rewrite E in Hr. exact Hr.
    - rewrite length_app, !length_map. rewrite length_app in Hcount.
      lia. }
  unfold update_graph, build_figure. cbv zeta.
  rewrite (smooth_line_unfold _ _ _ (column_lengths performance (load csv))).
  cbv zeta. rewrite length_map, valid_count_scored.
  destruct (Nat.leb_spec 3 (length (scored performance (load csv))));
    [|lia].
  rewrite fit_outcome, valid_x_scored, Hinc. reflexivity.
Qed.

End UndatedRow.

(* ------------------------------------------------------------------ *)
(** ** The further properties at sample inputs *)



Lemma smooth_line_point_count_witness :
  smooth_line [5; 6; 7] [Some 1%Q; None; Some 3%Q] default_points
  = Ok (AsInt64 [5; 7], FloatSeries [Some 1%Q; Some 3%Q])
  /\ x_length (AsInt64 [5; 7])
     = y_length (FloatSeries [Some 1%Q; Some 3%Q]).
Proof.
  split; [reflexivity|].
  exact (proj1 (smooth_line_point_count [5; 6; 7]
                  [Some 1%Q; None; Some 3%Q] default_points eq_refl
                  (AsInt64 [5; 7]) (FloatSeries [Some 1%Q; Some 3%Q])
                  eq_refl)).
Defined.

Lemma smooth_line_ignores_x_of_null_y_witness :
  smooth_line [0; 1; 2] [Some 1%Q; None; Some 3%Q] default_points
  = smooth_line [0; 99; 2] [Some 1%Q; None; Some 3%Q] default_points.
Proof.
  apply (smooth_line_ignores_x_of_null_y [0; 1; 2] [0; 99; 2]
           [Some 1%Q; None; Some 3%Q] default_points eq_refl eq_refl).
  intros [|[|[|i]]] v H; try reflexivity; discriminate H.
Defined.


Lemma franchises_names_unique_witness :
  two_franchises csv_folder
  = Some ["star_wars_movies.csv"; "readme.md";
          "toy_story_movies.csv"]%string
  /\ exists d,
       franchises two_franchises = Ok d
       /\ NoDup (map fst d)
       /\ (length d <= 2)%nat.
Proof.
  split; [reflexivity|]. eexists. split; [reflexivity|].
  exact (franchises_names_unique two_franchises _ eq_refl _ eq_refl).
Defined.

Lemma franchises_entries_from_files_witness :
  In ("star wars", "csvs/star_wars_movies.csv")%string
     [("star wars", "csvs/star_wars_movies.csv");
      ("toy story", "csvs/toy_story_movies.csv")]%string
  /\ exists file,
       In file ["star_wars_movies.csv"; "readme.md";
                "toy_story_movies.csv"]%string
       /\ Str.endswith file "_movies.csv" = true
       /\ "star wars"%string = display_name file
       /\ "csvs/star_wars_movies.csv"%string
          = (csv_folder ++ "/" ++ file)%string.
Proof.
  assert (Hin : In ("star wars", "csvs/star_wars_movies.csv")%string
                   [("star wars", "csvs/star_wars_movies.csv");
                    ("toy story", "csvs/toy_story_movies.csv")]%string)
    by (left; reflexivity).
  split; [exact Hin|].
  exact (franchises_entries_from_files two_franchises _ eq_refl
           _ "star wars" "csvs/star_wars_movies.csv" eq_refl Hin).
Defined.

Lemma franchises_last_file_wins_witness :
  franchises same_name_files
  = Ok [("star wars", "csvs/star wars_movies.csv")]%string
  /\ dict_get [("star wars", "csvs/star wars_movies.csv")]%string
              (display_name "star wars_movies.csv")
     = Some "csvs/star wars_movies.csv"%string.
Proof.
  split; [reflexivity|].
  apply (franchises_last_file_wins same_name_files _ eq_refl _
           ["star_wars_movies.csv"%string] [] "star wars_movies.csv"
           eq_refl eq_refl).
  intros later [].
Defined.

Lemma startup_options_in_listing_order_witness :
  matching ["star_wars_movies.csv"; "readme.md";
            "toy_story_movies.csv"]%string
  = ["star_wars_movies.csv"; "toy_story_movies.csv"]%string
  /\ exists d,
       startup two_franchises = Ok d
       /\ options d
          = [("Star Wars", "csvs/star_wars_movies.csv");
             ("Toy Story", "csvs/toy_story_movies.csv")]%string
       /\ value d = "csvs/star_wars_movies.csv"%string.
Proof.
  split; [reflexivity|].
  apply (startup_options_in_listing_order two_franchises _ eq_refl
           "star_wars_movies.csv" ["toy_story_movies.csv"%string] eq_refl).
  constructor; [intros [H|[]]; discriminate H|].
  constructor; [intros []|constructor].
Defined.

Lemma display_hover_data_reads_witness :
  (14 <= length sample_tuple)%nat
  /\ display_hover_data
       (Some [{| curveNumber := 1; pointIndex := 0;
                 point_customdata := Some sample_tuple |}])
     = display_hover_data
         (Some [{| curveNumber := 3; pointIndex := 0;
                   point_customdata := Some other_backdrop_tuple |};
                {| curveNumber := 1; pointIndex := 0;
                   point_customdata := None |}]).
Proof.
  split; [exact (le_n 14)|].
  apply (display_hover_data_reads
           {| curveNumber := 1; pointIndex := 0;
              point_customdata := Some sample_tuple |}
           {| curveNumber := 3; pointIndex := 0;
              point_customdata := Some other_backdrop_tuple |}
           []
           [{| curveNumber := 1; pointIndex := 0;
               point_customdata := None |}]
           sample_tuple other_backdrop_tuple eq_refl eq_refl (le_n 14)).
  intros i Hi H8.
  do 8 (destruct i as [|i]; [reflexivity|]).
  destruct i as [|i]; [exfalso; now apply H8|].
  do 5 (destruct i as [|i]; [reflexivity|]).
  exfalso. do 14 apply Nat.succ_lt_mono in Hi. inversion Hi.
Defined.





Lemma update_graph_small_table_witness :
  (length two_movies < 3)%nat
  /\ exists fig line_p markers_p line_s markers_s,
       update_graph two_movies = Ok fig
       /\ go.data fig = [line_p; markers_p; line_s; markers_s]
       /\ go.x line_s = AsInt64 [233366400000000000]
       /\ go.y line_s = FloatSeries [Some 8%Q].
Proof.
  split; [exact (le_n 3)|].
  destruct (update_graph_small_table two_movies (le_n 3))
    as [fig [lp [mp [ls [ms [Hfig [Hdata [_ [_ [Hx Hy]]]]]]]]]].
  exists fig, lp, mp, ls, ms. split; [exact Hfig|].
  split; [exact Hdata|]. split; [exact Hx|exact Hy].
Defined.

Lemma undated_row_stops_chart_witness :
  In undated_movie (five_movies ++ [undated_movie])
  /\ parses undated_movie = false
  /\ update_graph (five_movies ++ [undated_movie])
     = Raise (ValueError NotStrictlyIncreasing).
Proof.
  assert (Hin : In undated_movie (five_movies ++ [undated_movie]))
    by (apply in_or_app; right; left; reflexivity).
  split; [exact Hin|]. split; [reflexivity|].
  apply (undated_row_stops_chart (five_movies ++ [undated_movie])
           undated_movie Hin eq_refl).
  - discriminate.
  - exact (le_S _ _ (le_S _ _ (le_S _ _ (le_n 3)))).
Defined.
